(** * MCP tool adapter: confirmation gate, content transformer, display summarizer

    A shallow embedding of [packages/core/src/tools/mcp-tool.ts] and of the
    alternate revision of the same adapter (the block-switch revision whose
    transformer is [transformMcpContentToParts]).

    The program works on loosely typed JSON-like data, so the embedding
    starts with a model of the JavaScript values the code can observe:
    property reads, [typeof], truthiness, string conversion in template
    literals, and the [TypeError] raised by a property read on [null] or
    [undefined]. *)

From Stdlib Require Import ZArith String Ascii List Bool Lia DecimalString.
From stdpp Require Import gmap strings list.
Import ListNotations.

Local Open Scope string_scope.
Local Open Scope list_scope.
Local Open Scope nat_scope.

(** ** Strings

    A [string] stands for a JavaScript string, one [ascii] per UTF-16 code
    unit (the model carries the code units below 256; the program only ever
    inspects ASCII characters and otherwise copies and concatenates). *)

Definition nl : string := String (ascii_of_nat 10) EmptyString.

(** [s.slice(0, n)] and [s.slice(-n)] for [n <= s.length]. *)
Definition slice_first (n : nat) (s : string) : string := substring 0 n s.
Definition slice_last (n : nat) (s : string) : string :=
  substring (String.length s - n) n s.

(** ** generateValidName *)

Definition in_range (lo hi : nat) (c : ascii) : bool :=
  (lo <=? nat_of_ascii c)%nat && (nat_of_ascii c <=? hi)%nat.

(** The character class [[a-zA-Z0-9_.-]]. *)
Definition validChar (c : ascii) : bool :=
  in_range 97 122 c || in_range 65 90 c || in_range 48 57 c
  || Ascii.eqb c "_" || Ascii.eqb c "." || Ascii.eqb c "-".

(** [name.replace(/[^a-zA-Z0-9_.-]/g, '_')] *)
Fixpoint replaceInvalid (name : string) : string :=
  match name with
  | EmptyString => EmptyString
  | String c rest =>
      String (if validChar c then c else "_"%char) (replaceInvalid rest)
  end.

Definition generateValidName (name : string) : string :=
  let validToolname := replaceInvalid name in
  if (63 <? String.length validToolname)%nat
  then slice_first 28 validToolname +:+ "___" +:+ slice_last 32 validToolname
  else validToolname.

Definition allValid (s : string) : Prop :=
  Forall (fun c => validChar c = true) (list_ascii_of_string s).

(** ** JavaScript values

    Objects are association lists in insertion order (the order matters to
    [JSON.stringify] and to nothing else); a property read returns the first
    binding of the key.  Numbers are integers: no property below depends on
    fractions, and [0] is the only falsy number in the model. *)

#[warnings="-register-all"]
Inductive JsVal : Type :=
| JUndefined
| JNull
| JBool (b : bool)
| JNum (n : Z)
| JStr (s : string)
| JArr (elems : list JsVal)
| JObj (fields : list (string * JsVal)).

Inductive JsError : Type := TypeError | SyntaxError.

(** The result of running code that may throw. *)
Inductive outcome (A : Type) : Type :=
| Returns (a : A)
| Throws (e : JsError).
Arguments Returns {A} a.
Arguments Throws {A} e.

Definition bind {A B} (m : outcome A) (k : A -> outcome B) : outcome B :=
  match m with
  | Returns a => k a
  | Throws e => Throws e
  end.

Notation "x <- m ;; k" := (bind m (fun x => k))
  (at level 100, m at next level, right associativity).

(** Left-to-right loops whose body may throw: [for (... of l)] with an
    accumulator, and [l.map(f)]. *)
Fixpoint foldM {S A} (f : S -> A -> outcome S) (st : S) (l : list A)
  : outcome S :=
  match l with
  | [] => Returns st
  | x :: rest => st' <- f st x ;; foldM f st' rest
  end.

Fixpoint mapM {A B} (f : A -> outcome B) (l : list A) : outcome (list B) :=
  match l with
  | [] => Returns []
  | x :: rest => y <- f x ;; ys <- mapM f rest ;; Returns (y :: ys)
  end.

Fixpoint assoc (k : string) (fs : list (string * JsVal)) : option JsVal :=
  match fs with
  | [] => None
  | (k', v) :: rest => if String.eqb k k' then Some v else assoc k rest
  end.

(** [v.k] where [v] is known not to be [null] or [undefined].  The keys the
    program reads are never array indices or [length], so arrays and
    primitives answer [undefined]. *)
Definition field (v : JsVal) (k : string) : JsVal :=
  match v with
  | JObj fs => match assoc k fs with Some x => x | None => JUndefined end
  | _ => JUndefined
  end.

(** [v.k] in general: a [TypeError] on [null] and [undefined]. *)
Definition member (v : JsVal) (k : string) : outcome JsVal :=
  match v with
  | JUndefined | JNull => Throws TypeError
  | _ => Returns (field v k)
  end.

(** [v?.k] *)
Definition opt_member (v : JsVal) (k : string) : JsVal :=
  match v with
  | JUndefined | JNull => JUndefined
  | _ => field v k
  end.

(** ['k' in v] for an object [v]. *)
Definition has (k : string) (v : JsVal) : bool :=
  match v with
  | JObj fs => match assoc k fs with Some _ => true | None => false end
  | _ => false
  end.

Definition typeof (v : JsVal) : string :=
  match v with
  | JUndefined => "undefined"
  | JNull => "object"
  | JBool _ => "boolean"
  | JNum _ => "number"
  | JStr _ => "string"
  | JArr _ => "object"
  | JObj _ => "object"
  end.

Definition truthy (v : JsVal) : bool :=
  match v with
  | JUndefined | JNull => false
  | JBool b => b
  | JNum n => negb (n =? 0)%Z
  | JStr s => negb (String.eqb s EmptyString)
  | JArr _ | JObj _ => true
  end.

(** [a || b] *)
Definition js_or (a b : JsVal) : JsVal := if truthy a then a else b.

(** [v === 's'] for a string literal ['s']. *)
Definition is_str (s : string) (v : JsVal) : bool :=
  match v with
  | JStr t => String.eqb t s
  | _ => false
  end.

Definition is_null (v : JsVal) : bool :=
  match v with JNull => true | _ => false end.

Definition is_undefined (v : JsVal) : bool :=
  match v with JUndefined => true | _ => false end.

Definition isArray (v : JsVal) : bool :=
  match v with JArr _ => true | _ => false end.

(** String conversion, as performed by template literals and [join]. *)
Fixpoint ToString (v : JsVal) : string :=
  match v with
  | JUndefined => "undefined"
  | JNull => "null"
  | JBool true => "true"
  | JBool false => "false"
  | JNum n => NilZero.string_of_int (Z.to_int n)
  | JStr s => s
  | JArr l =>
      (fix elems (l : list JsVal) : string :=
         match l with
         | [] => EmptyString
         | x :: rest =>
             let sx := match x with
                       | JUndefined | JNull => EmptyString
                       | _ => ToString x
                       end in
             match rest with
             | [] => sx
             | _ :: _ => sx +:+ "," +:+ elems rest
             end
         end) l
  | JObj _ => "[object Object]"
  end.

(** [l.join(sep)]: [null] and [undefined] elements render as nothing. *)
Definition joinElem (x : JsVal) : string :=
  match x with
  | JUndefined | JNull => EmptyString
  | _ => ToString x
  end.

Fixpoint Array_join (sep : string) (l : list JsVal) : string :=
  match l with
  | [] => EmptyString
  | x :: rest =>
      match rest with
      | [] => joinElem x
      | _ :: _ => joinElem x +:+ sep +:+ Array_join sep rest
      end
  end.

(** [l.find(p)] *)
Definition Array_find (p : JsVal -> bool) (l : list JsVal) : JsVal :=
  match List.find p l with
  | Some x => x
  | None => JUndefined
  end.

(** The two shapes of canonical output part the program builds. *)
Definition textPart (text : JsVal) : JsVal := JObj [("text", text)].
Definition inlineDataPart (data mimeType : JsVal) : JsVal :=
  JObj [("inlineData", JObj [("data", data); ("mimeType", mimeType)])].

(** A markdown-fenced JSON block, [JSON.stringify]'s result being a string
    or [undefined]. *)
Definition fenced (json : option string) : string :=
  "```json" +:+ nl
  +:+ match json with Some s => s | None => "undefined" end
  +:+ nl +:+ "```".

(** ** The tool object and the confirmation gate

    [shouldConfirmExecute] and the [onConfirm] closure are the same in both
    revisions of the adapter. *)

(** Modelled from the spec: the enum [ToolConfirmationOutcome] is declared
    in [tools.js], which is not part of the sources at hand; the spec lists
    its decisions as ProceedOnce, ProceedAlwaysServer, ProceedAlwaysTool and
    Cancel. *)
Inductive ToolConfirmationOutcome : Type :=
| ProceedOnce
| ProceedAlwaysServer
| ProceedAlwaysTool
| Cancel.

Record DiscoveredMCPTool : Type := {
  serverName : string;
  serverToolName : string;
  timeout : option Z;
  trust : option bool;
  nameOverride : option string
}.

(** [nameOverride ?? generateValidName(serverToolName)] *)
Definition name (this : DiscoveredMCPTool) : string :=
  match nameOverride this with
  | Some n => n
  | None => generateValidName (serverToolName this)
  end.

Definition asFullyQualifiedTool (this : DiscoveredMCPTool) : DiscoveredMCPTool :=
  {| serverName := serverName this;
     serverToolName := serverToolName this;
     timeout := timeout this;
     trust := trust this;
     nameOverride := Some (serverName this +:+ "__" +:+ serverToolName this) |}.

(** The confirmation object handed to the caller.  Its [onConfirm] closure
    captures the two allow-list keys computed by [shouldConfirmExecute]. *)
Record ToolMcpConfirmationDetails : Type := {
  type_ : string;
  title : string;
  details_serverName : string;
  toolName : string;
  toolDisplayName : string;
  serverAllowListKey : string;
  toolAllowListKey : string
}.

(** The static [allowlist] is threaded explicitly: [shouldConfirmExecute]
    only reads it; [None] stands for the result [false]. *)
Definition shouldConfirmExecute (this : DiscoveredMCPTool)
    (allowlist : gset string) : option ToolMcpConfirmationDetails :=
  let serverAllowListKey := serverName this in
  let toolAllowListKey := serverName this +:+ "." +:+ serverToolName this in
  if match trust this with Some b => b | None => false end then None
  else if bool_decide (serverAllowListKey ∈ allowlist)
          || bool_decide (toolAllowListKey ∈ allowlist) then None
  else Some {| type_ := "mcp";
               title := "Confirm MCP Tool Execution";
               details_serverName := serverName this;
               toolName := serverToolName this;
               toolDisplayName := name this;
               serverAllowListKey := serverAllowListKey;
               toolAllowListKey := toolAllowListKey |}.

Definition onConfirm (details : ToolMcpConfirmationDetails)
    (outcome : ToolConfirmationOutcome) (allowlist : gset string)
  : gset string :=
  match outcome with
  | ProceedAlwaysServer => allowlist ∪ {[ serverAllowListKey details ]}
  | ProceedAlwaysTool => allowlist ∪ {[ toolAllowListKey details ]}
  | _ => allowlist
  end.

(** Any later activity on the allow-list: a sequence of confirmations being
    resolved, in any order and with any decision. *)
Definition resolveAll (allowlist : gset string)
    (resolutions : list (ToolMcpConfirmationDetails * ToolConfirmationOutcome))
  : gset string :=
  fold_left (fun al r => onConfirm (fst r) (snd r) al) resolutions allowlist.

(** ** mcp-tool.ts: the media-aware revision *)

Module McpTool.

Definition MCP_MEDIA_TYPES : list string := ["image"; "pdf"; "audio"; "video"].

(** [MCP_MEDIA_TYPES.includes(v)] *)
Definition includes (l : list string) (v : JsVal) : bool :=
  match v with
  | JStr s => existsb (String.eqb s) l
  | _ => false
  end.

Definition isTextContent (item : JsVal) : bool :=
  String.eqb (typeof item) "object"
  && negb (is_null item)
  && has "type" item
  && has "text" item
  && is_str "text" (field item "type")
  && String.eqb (typeof (field item "text")) "string".

(** [typeof null] is ['object'], so the last conjunct reads [uri] off a
    [null] resource and throws. *)
Definition isResourceContent (item : JsVal) : outcome bool :=
  if String.eqb (typeof item) "object"
     && negb (is_null item)
     && has "type" item
     && has "resource" item
     && is_str "resource" (field item "type")
     && String.eqb (typeof (field item "resource")) "object"
  then uri <- member (field item "resource") "uri" ;;
       Returns (String.eqb (typeof uri) "string")
  else Returns false.

Definition isMediaContent (item : JsVal) : bool :=
  if negb (String.eqb (typeof item) "object") || is_null item then false
  else
    let obj := item in
    if negb (has "type" obj) || negb (has "data" obj)
       || negb (has "mimeType" obj) then false
    else if negb (String.eqb (typeof (field obj "type")) "string")
            || negb (includes MCP_MEDIA_TYPES (field obj "type")) then false
    else negb (is_null (field obj "data"))
         && negb (is_undefined (field obj "data"))
         && negb (is_null (field obj "mimeType"))
         && negb (is_undefined (field obj "mimeType")).

(** The local variables of [transformMcpResponse]. *)
Record state : Type := {
  result : list JsVal;
  hasTransformedContent : bool;
  currentPartHasMedia : bool;
  currentPartItems : list JsVal
}.

Definition initial : state :=
  {| result := []; hasTransformedContent := false;
     currentPartHasMedia := false; currentPartItems := [] |}.

(** [result.push(...ps)] *)
Definition pushResult (ps : list JsVal) (st : state) : state :=
  {| result := result st ++ ps;
     hasTransformedContent := hasTransformedContent st;
     currentPartHasMedia := currentPartHasMedia st;
     currentPartItems := currentPartItems st |}.

(** [currentPartItems.push(p); hasTransformedContent = true], and
    [currentPartHasMedia = true] as well when [media] is set. *)
Definition pushItem (media : bool) (p : JsVal) (st : state) : state :=
  {| result := result st;
     hasTransformedContent := true;
     currentPartHasMedia := media || currentPartHasMedia st;
     currentPartItems := currentPartItems st ++ [p] |}.

Definition invalidMedia : JsVal :=
  textPart (JStr "[Invalid media: missing data or mimeType]").

(** The body of the loop [for (const item of content)]. *)
Definition transformItem (st : state) (item : JsVal) : outcome state :=
  if isTextContent item then
    Returns (pushItem false (textPart (field item "text")) st)
  else if isMediaContent item then
    if negb (truthy (field item "data"))
       || negb (truthy (field item "mimeType"))
       || negb (String.eqb (typeof (field item "data")) "string")
       || negb (String.eqb (typeof (field item "mimeType")) "string")
    then Returns (pushItem false invalidMedia st)
    else Returns (pushItem true
                    (inlineDataPart (field item "data") (field item "mimeType"))
                    st)
  else
    isResource <- isResourceContent item ;;
    if isResource then
      let resource := field item "resource" in
      if truthy (field resource "blob") && truthy (field resource "mimeType")
      then Returns (pushItem true
                      (inlineDataPart (field resource "blob")
                         (field resource "mimeType")) st)
      else if truthy (field resource "text")
      then Returns (pushItem false
                      (textPart (JStr ("[Resource: "
                                       +:+ ToString (field resource "uri")
                                       +:+ "]" +:+ nl
                                       +:+ ToString (field resource "text"))))
                      st)
      else Returns (pushItem false
                      (textPart (JStr ("[Resource: "
                                       +:+ ToString (field resource "uri")
                                       +:+ "]"))) st)
    else if truthy item && String.eqb (typeof item) "object" && has "type" item
    then
      let itemType := field item "type" in
      if String.eqb (typeof itemType) "string"
         && includes MCP_MEDIA_TYPES itemType
      then Returns (pushItem false invalidMedia st)
      else Returns (pushItem false
                      (textPart (JStr ("[Unknown content type: "
                                       +:+ ToString itemType +:+ "]"))) st)
    else Returns st.

Definition responseHeader (this : DiscoveredMCPTool) : JsVal :=
  textPart (JStr ("[Response from " +:+ serverToolName this +:+ " ("
                  +:+ serverName this +:+ " MCP Server)]")).

(** The body of the loop [for (const part of responseParts)]. *)
Definition transformPart (this : DiscoveredMCPTool) (st : state) (part : JsVal)
  : outcome state :=
  functionResponse <- member part "functionResponse" ;;
  if negb (truthy functionResponse) then Returns (pushResult [part] st)
  else
    let content := opt_member (field functionResponse "response") "content" in
    match content with
    | JArr items =>
        if truthy (opt_member (field functionResponse "response") "isError")
        then
          let errorText :=
            js_or (opt_member (Array_find isTextContent items) "text")
                  (JStr "Unknown error") in
          let st1 :=
            pushResult [textPart (JStr ("Error from " +:+ serverToolName this
                                        +:+ ": " +:+ ToString errorText))] st in
          Returns {| result := result st1;
                     hasTransformedContent := true;
                     currentPartHasMedia := currentPartHasMedia st1;
                     currentPartItems := currentPartItems st1 |}
        else
          let st1 := {| result := result st;
                        hasTransformedContent := hasTransformedContent st;
                        currentPartHasMedia := false;
                        currentPartItems := [] |} in
          st2 <- foldM transformItem st1 items ;;
          let st3 :=
            if currentPartHasMedia st2
               && (0 <? length (currentPartItems st2))
            then pushResult [responseHeader this] st2
            else st2 in
          Returns (pushResult (currentPartItems st3) st3)
    | _ => Returns (pushResult [part] st)
    end.

Definition transformMcpResponse (this : DiscoveredMCPTool)
    (responseParts : list JsVal) : outcome (list JsVal) :=
  st <- foldM (transformPart this) initial responseParts ;;
  Returns (if hasTransformedContent st then result st else responseParts).

(** [JSON.stringify(v, null, 2)] is the runtime's; the display function is
    parametric in it. *)
Section Display.
Variable JSON_stringify : JsVal -> option string.

(** The callback of [responseContent.map] in [processFunctionResponse]. *)
Definition processItem (item : JsVal) : JsVal :=
  if negb (truthy item) || negb (String.eqb (typeof item) "object") then item
  else
    let obj := item in
    let hasMedia := truthy (field obj "data") && truthy (field obj "mimeType") in
    if is_str "text" (field obj "type") && truthy (field obj "text")
    then field obj "text"
    else if is_str "image" (field obj "type") && hasMedia
    then JStr ("[Image: " +:+ ToString (field obj "mimeType") +:+ "]")
    else if is_str "audio" (field obj "type") && hasMedia
    then JStr ("[Audio: " +:+ ToString (field obj "mimeType") +:+ "]")
    else if is_str "video" (field obj "type") && hasMedia
    then JStr ("[Video: " +:+ ToString (field obj "mimeType") +:+ "]")
    else if is_str "pdf" (field obj "type") && hasMedia
    then JStr "[PDF document]"
    else if negb (is_undefined (field obj "text"))
    then field obj "text"
    else item.

Definition processFunctionResponse (part : JsVal) : outcome JsVal :=
  functionResponse <- member part "functionResponse" ;;
  if truthy functionResponse then
    match opt_member (field functionResponse "response") "content" with
    | JArr responseContent =>
        let processedContent := map processItem responseContent in
        if forallb (fun item => String.eqb (typeof item) "string")
             processedContent
        then Returns (JStr (Array_join nl processedContent))
        else Returns (JArr processedContent)
    | _ => Returns functionResponse
    end
  else Returns part.

Definition getStringifiedResultForDisplay (result : list JsVal)
  : outcome string :=
  if (length result =? 0)%nat then Returns (fenced (Some "[]"))
  else
    processedResults <-
      match result with
      | [part] => processFunctionResponse part
      | _ => ps <- mapM processFunctionResponse result ;; Returns (JArr ps)
      end ;;
    match processedResults with
    | JStr s => Returns s
    | _ => Returns (fenced (JSON_stringify processedResults))
    end.

(** [execute], after the outbound call has produced [responseParts]. *)
Definition execute (this : DiscoveredMCPTool) (responseParts : list JsVal)
  : outcome (list JsVal * string) :=
  transformedParts <- transformMcpResponse this responseParts ;;
  returnDisplay <- getStringifiedResultForDisplay responseParts ;;
  Returns (transformedParts, returnDisplay).

End Display.

End McpTool.

(** ** The alternate revision: a block switch with legacy JSON unwrapping *)

Module Part000.

Section Runtime.
(** [JSON.parse] ([Throws SyntaxError] on malformed text) and
    [JSON.stringify(v, null, 2)] are the runtime's. *)
Variable JSON_parse : string -> outcome JsVal.
Variable JSON_stringify : JsVal -> option string.

(** [a?.[0]] for an array [a]. *)
Definition first (a : list JsVal) : JsVal :=
  match a with
  | x :: _ => x
  | [] => JUndefined
  end.

(** The [switch (actualBlock.type)] of the [flatMap] callback; the result is
    a part, an array of parts, or [null]. *)
Definition switchBlock (toolName : JsVal) (actualBlock : JsVal)
  : outcome JsVal :=
  type <- member actualBlock "type" ;;
  if is_str "text" type then
    Returns (textPart (field actualBlock "text"))
  else if is_str "image" type || is_str "audio" type then
    Returns (JArr [
      textPart (JStr ("[Tool '" +:+ ToString toolName
                      +:+ "' provided the following " +:+ ToString type
                      +:+ " data with mime-type: "
                      +:+ ToString (field actualBlock "mimeType") +:+ "]"));
      JObj [("inlineData",
             JObj [("mimeType", field actualBlock "mimeType");
                   ("data", field actualBlock "data")])] ])
  else if is_str "resource" type then
    let resource := field actualBlock "resource" in
    if truthy (opt_member resource "text") then
      Returns (textPart (field resource "text"))
    else if truthy (opt_member resource "blob") then
      let mimeType :=
        js_or (field resource "mimeType") (JStr "application/octet-stream") in
      Returns (JArr [
        textPart (JStr ("[Tool '" +:+ ToString toolName
                        +:+ "' provided the following embedded resource with mime-type: "
                        +:+ ToString mimeType +:+ "]"));
        JObj [("inlineData",
               JObj [("mimeType", mimeType);
                     ("data", field resource "blob")])] ])
    else Returns JNull
  else if is_str "resource_link" type then
    Returns (textPart (JStr ("Resource Link: "
                             +:+ ToString (js_or (field actualBlock "title")
                                                 (field actualBlock "name"))
                             +:+ " at " +:+ ToString (field actualBlock "uri"))))
  else Returns JNull.

(** The [flatMap] callback. *)
Definition transformBlock (toolName : JsVal) (block : JsVal) : outcome JsVal :=
  text <- member block "text" ;;
  if truthy text && negb (truthy (field block "type")) then
    match JSON_parse (ToString text) with
    | Returns actualBlock => switchBlock toolName actualBlock
    | Throws _ => Returns (textPart text)
    end
  else switchBlock toolName block.

(** One level of flattening, as [flatMap] does with the callback's result. *)
Definition flatten (v : JsVal) : list JsVal :=
  match v with
  | JArr l => l
  | _ => [v]
  end.

Definition transformMcpContentToParts (sdkResponse : list JsVal)
  : outcome (list JsVal) :=
  let funcResponse := opt_member (first sdkResponse) "functionResponse" in
  let mcpContent := opt_member (opt_member funcResponse "response") "content" in
  let toolName := js_or (opt_member funcResponse "name") (JStr "unknown tool") in
  match mcpContent with
  | JArr blocks =>
      results <- mapM (transformBlock toolName) blocks ;;
      let transformed := concat (map flatten results) in
      Returns (List.filter (fun part => negb (is_null part)) transformed)
  | _ => Returns [textPart (JStr "[Error: Could not parse tool response]")]
  end.

(** The [map] callback of the display function. *)
Definition displayBlock (block : JsVal) : outcome JsVal :=
  type <- member block "type" ;;
  if is_str "text" type then Returns (field block "text")
  else if is_str "image" type then
    Returns (JStr ("[Image: " +:+ ToString (field block "mimeType") +:+ "]"))
  else if is_str "audio" type then
    Returns (JStr ("[Audio: " +:+ ToString (field block "mimeType") +:+ "]"))
  else if is_str "resource_link" type then
    Returns (JStr ("[Link to "
                   +:+ ToString (js_or (field block "title") (field block "name"))
                   +:+ ": " +:+ ToString (field block "uri") +:+ "]"))
  else if is_str "resource" type then
    let resource := field block "resource" in
    if truthy (opt_member resource "text") then Returns (field resource "text")
    else Returns (JStr ("[Embedded Resource: "
                        +:+ ToString (js_or (opt_member resource "mimeType")
                                            (JStr "unknown type"))
                        +:+ "]"))
  else Returns (JStr ("[Unknown content type: " +:+ ToString type +:+ "]")).

Definition getStringifiedResultForDisplay (rawResponse : list JsVal)
  : outcome string :=
  let mcpContent :=
    opt_member (opt_member (opt_member (first rawResponse) "functionResponse")
                  "response") "content" in
  match mcpContent with
  | JArr blocks =>
      displayParts <- mapM displayBlock blocks ;;
      Returns (Array_join nl displayParts)
  | _ => Returns (fenced (JSON_stringify (JArr rawResponse)))
  end.

Definition execute (rawResponseParts : list JsVal)
  : outcome (list JsVal * string) :=
  transformedParts <- transformMcpContentToParts rawResponseParts ;;
  returnDisplay <- getStringifiedResultForDisplay rawResponseParts ;;
  Returns (transformedParts, returnDisplay).

End Runtime.

End Part000.

(** ** A reference [JSON.parse] for concrete inputs

    The theorems about the legacy unwrapping hold for any parser; to run the
    model on concrete responses, this is [JSON.parse] on the fragment of
    JSON with integer numbers, no [\u] escapes and no duplicate keys. *)

Module Json.

Definition isChar (n : nat) (c : ascii) : bool := (nat_of_ascii c =? n)%nat.

Definition isWhitespace (c : ascii) : bool :=
  isChar 32 c || isChar 9 c || isChar 10 c || isChar 13 c.

Definition isDigit (c : ascii) : bool := in_range 48 57 c.

Fixpoint skipWhitespace (cs : list ascii) : list ascii :=
  match cs with
  | c :: rest => if isWhitespace c then skipWhitespace rest else cs
  | [] => []
  end.

Definition unescape (c : ascii) : option ascii :=
  if isChar 34 c || isChar 92 c || isChar 47 c then Some c
  else if isChar 110 c then Some (ascii_of_nat 10)
  else if isChar 116 c then Some (ascii_of_nat 9)
  else if isChar 114 c then Some (ascii_of_nat 13)
  else if isChar 98 c then Some (ascii_of_nat 8)
  else if isChar 102 c then Some (ascii_of_nat 12)
  else None.

(** The characters of a string literal, after its opening quote. *)
Fixpoint parseString (cs : list ascii) : option (string * list ascii) :=
  match cs with
  | [] => None
  | c :: rest =>
      if isChar 34 c then Some (EmptyString, rest)
      else if isChar 92 c then
        match rest with
        | e :: rest' =>
            match unescape e, parseString rest' with
            | Some ch, Some (s, out) => Some (String ch s, out)
            | _, _ => None
            end
        | [] => None
        end
      else if (nat_of_ascii c <? 32)%nat then None
      else match parseString rest with
           | Some (s, out) => Some (String c s, out)
           | None => None
           end
  end.

Fixpoint parseDigits (acc : Z) (cs : list ascii) : Z * list ascii :=
  match cs with
  | c :: rest =>
      if isDigit c
      then parseDigits (10 * acc + Z.of_nat (nat_of_ascii c - 48))%Z rest
      else (acc, cs)
  | [] => (acc, [])
  end.

Definition startsFraction (cs : list ascii) : bool :=
  match cs with
  | c :: _ => isChar 46 c || isChar 101 c || isChar 69 c
  | [] => false
  end.

Definition parseNumber (cs : list ascii) : option (JsVal * list ascii) :=
  let '(negative, ds) :=
    match cs with
    | c :: rest => if isChar 45 c then (true, rest) else (false, cs)
    | [] => (false, [])
    end in
  match ds with
  | d :: more =>
      if isDigit d then
        let '(n, out) := parseDigits 0 ds in
        if startsFraction out
           || (isChar 48 d && match more with
                              | d' :: _ => isDigit d'
                              | [] => false
                              end)
        then None
        else Some (JNum (if negative then - n else n)%Z, out)
      else None
  | [] => None
  end.

Fixpoint dropPrefix (w cs : list ascii) : option (list ascii) :=
  match w, cs with
  | [], _ => Some cs
  | a :: w', c :: cs' => if Ascii.eqb a c then dropPrefix w' cs' else None
  | _ :: _, [] => None
  end.

Definition parseLiteral (cs : list ascii) : option (JsVal * list ascii) :=
  match dropPrefix (list_ascii_of_string "true") cs with
  | Some out => Some (JBool true, out)
  | None =>
  match dropPrefix (list_ascii_of_string "false") cs with
  | Some out => Some (JBool false, out)
  | None =>
  match dropPrefix (list_ascii_of_string "null") cs with
  | Some out => Some (JNull, out)
  | None => parseNumber cs
  end end end.

Fixpoint parseValue (fuel : nat) (cs : list ascii) {struct fuel}
  : option (JsVal * list ascii) :=
  match fuel with
  | O => None
  | S fuel =>
      match skipWhitespace cs with
      | [] => None
      | c :: rest =>
          if isChar 123 c then
            match skipWhitespace rest with
            | c' :: rest' =>
                if isChar 125 c' then Some (JObj [], rest')
                else match parseMembers fuel rest with
                     | Some (ms, out) => Some (JObj ms, out)
                     | None => None
                     end
            | [] => None
            end
          else if isChar 91 c then
            match skipWhitespace rest with
            | c' :: rest' =>
                if isChar 93 c' then Some (JArr [], rest')
                else match parseElements fuel rest with
                     | Some (es, out) => Some (JArr es, out)
                     | None => None
                     end
            | [] => None
            end
          else if isChar 34 c then
            match parseString rest with
            | Some (s, out) => Some (JStr s, out)
            | None => None
            end
          else parseLiteral (c :: rest)
      end
  end
with parseMembers (fuel : nat) (cs : list ascii) {struct fuel}
  : option (list (string * JsVal) * list ascii) :=
  match fuel with
  | O => None
  | S fuel =>
      match skipWhitespace cs with
      | q :: rest =>
          if isChar 34 q then
            match parseString rest with
            | Some (k, afterKey) =>
                match skipWhitespace afterKey with
                | colon :: afterColon =>
                    if isChar 58 colon then
                      match parseValue fuel afterColon with
                      | Some (v, afterValue) =>
                          match skipWhitespace afterValue with
                          | sep :: more =>
                              if isChar 125 sep then Some ([(k, v)], more)
                              else if isChar 44 sep then
                                match parseMembers fuel more with
                                | Some (ms, out) => Some ((k, v) :: ms, out)
                                | None => None
                                end
                              else None
                          | [] => None
                          end
                      | None => None
                      end
                    else None
                | [] => None
                end
            | None => None
            end
          else None
      | [] => None
      end
  end
with parseElements (fuel : nat) (cs : list ascii) {struct fuel}
  : option (list JsVal * list ascii) :=
  match fuel with
  | O => None
  | S fuel =>
      match parseValue fuel cs with
      | Some (v, afterValue) =>
          match skipWhitespace afterValue with
          | sep :: more =>
              if isChar 93 sep then Some ([v], more)
              else if isChar 44 sep then
                match parseElements fuel more with
                | Some (es, out) => Some (v :: es, out)
                | None => None
                end
              else None
          | [] => None
          end
      | None => None
      end
  end.

Definition parse (text : string) : outcome JsVal :=
  match parseValue (S (String.length text)) (list_ascii_of_string text) with
  | Some (v, out) =>
      match skipWhitespace out with
      | [] => Returns v
      | _ :: _ => Throws SyntaxError
      end
  | None => Throws SyntaxError
  end.

(** The double quote, for writing JSON text. *)
Definition dq : string := String (ascii_of_nat 34) EmptyString.

(** A reference [JSON.stringify(v, null, 2)]. *)
Definition hexDigit (n : nat) : ascii :=
  if (n <? 10)%nat then ascii_of_nat (48 + n) else ascii_of_nat (87 + n).

Definition escapeChar (c : ascii) : string :=
  let n := nat_of_ascii c in
  let backslash := String (ascii_of_nat 92) EmptyString in
  if isChar 34 c || isChar 92 c then backslash +:+ String c EmptyString
  else if isChar 10 c then backslash +:+ "n"
  else if isChar 13 c then backslash +:+ "r"
  else if isChar 9 c then backslash +:+ "t"
  else if isChar 8 c then backslash +:+ "b"
  else if isChar 12 c then backslash +:+ "f"
  else if (n <? 32)%nat
  then backslash +:+ "u00"
       +:+ String (hexDigit (n / 16)) (String (hexDigit (n mod 16)) EmptyString)
  else String c EmptyString.

Fixpoint escape (s : string) : string :=
  match s with
  | EmptyString => EmptyString
  | String c rest => escapeChar c +:+ escape rest
  end.

Definition quote (s : string) : string := dq +:+ escape s +:+ dq.

Fixpoint stringifyAt (indent : string) (v : JsVal) {struct v} : option string :=
  let inner := indent +:+ "  " in
  match v with
  | JUndefined => None
  | JNull => Some "null"
  | JBool true => Some "true"
  | JBool false => Some "false"
  | JNum n => Some (NilZero.string_of_int (Z.to_int n))
  | JStr s => Some (quote s)
  | JArr l =>
      let lines :=
        (fix elems (l : list JsVal) : list string :=
           match l with
           | [] => []
           | x :: rest =>
               (inner +:+ match stringifyAt inner x with
                          | Some s => s
                          | None => "null"
                          end) :: elems rest
           end) l in
      match lines with
      | [] => Some "[]"
      | _ :: _ =>
          Some ("[" +:+ nl +:+ String.concat ("," +:+ nl) lines
                +:+ nl +:+ indent +:+ "]")
      end
  | JObj fs =>
      let lines :=
        (fix members (fs : list (string * JsVal)) : list string :=
           match fs with
           | [] => []
           | (k, x) :: rest =>
               match stringifyAt inner x with
               | Some s => (inner +:+ quote k +:+ ": " +:+ s) :: members rest
               | None => members rest
               end
           end) fs in
      match lines with
      | [] => Some "{}"
      | _ :: _ =>
          Some ("{" +:+ nl +:+ String.concat ("," +:+ nl) lines
                +:+ nl +:+ indent +:+ "}")
      end
  end.

Definition stringify (v : JsVal) : option string := stringifyAt EmptyString v.

End Json.

(** ** Building responses

    [functionResponsePart name response] is the part
    [{functionResponse: {name, response}}] that [callTool] returns. *)

Definition functionResponsePart (name : string)
    (response : list (string * JsVal)) : JsVal :=
  JObj [("functionResponse",
         JObj [("name", JStr name); ("response", JObj response)])].

Definition textBlock (text : string) : JsVal :=
  JObj [("type", JStr "text"); ("text", JStr text)].

Definition mediaBlock (type : string) (data mimeType : JsVal) : JsVal :=
  JObj [("type", JStr type); ("data", data); ("mimeType", mimeType)].

Definition resourceBlock (resource : list (string * JsVal)) : JsVal :=
  JObj [("type", JStr "resource"); ("resource", JObj resource)].

Definition mkTool (server tool : string) : DiscoveredMCPTool :=
  {| serverName := server; serverToolName := tool; timeout := None;
     trust := None; nameOverride := None |}.

(** ** Vocabulary of the statements *)

(** [responsePart part items]: [part] is
    [{functionResponse: {response: {content: items, ...}, ...}}]. *)
Definition responsePart (part : JsVal) (items : list JsVal) : Prop :=
  exists functionResponse,
    member part "functionResponse" = Returns functionResponse
    /\ truthy functionResponse = true
    /\ opt_member (field functionResponse "response") "content" = JArr items.

(** The envelope's error flag, [functionResponse.response?.isError]. *)
Definition errorFlag (part : JsVal) : bool :=
  truthy (opt_member (field (opt_member part "functionResponse") "response")
            "isError").

(** The parts that go through per-block processing, and those that the
    error flag diverts. *)
Definition plainPart (part : JsVal) (items : list JsVal) : Prop :=
  responsePart part items /\ errorFlag part = false.

Definition errorPart (part : JsVal) (items : list JsVal) : Prop :=
  responsePart part items /\ errorFlag part = true.

Definition isString (v : JsVal) : bool := String.eqb (typeof v) "string".

(** The parts that the inner loop of [transformMcpResponse] emits for a
    content array, before the header is decided. *)
Definition contentParts (items : list JsVal) : outcome (list JsVal) :=
  st <- foldM McpTool.transformItem McpTool.initial items ;;
  Returns (McpTool.currentPartItems st).

Definition isInlineData (part : JsVal) : bool := has "inlineData" part.

(** What one plain part contributes to the result: its items, preceded by
    the header exactly when one of them is binary. *)
Definition withHeader (this : DiscoveredMCPTool) (items : list JsVal)
  : list JsVal :=
  (if existsb isInlineData items then [McpTool.responseHeader this] else [])
  ++ items.

Definition textOf (item : JsVal) : string :=
  match field item "text" with
  | JStr s => s
  | _ => EmptyString
  end.

Definition contains (needle haystack : string) : Prop :=
  exists before after, haystack = before +:+ needle +:+ after.

(** A media block: an object whose [type] is one of the media types. *)
Definition isMediaBlock (item : JsVal) : Prop :=
  exists fields type,
    item = JObj fields /\ field item "type" = JStr type
    /\ In type McpTool.MCP_MEDIA_TYPES.

(** A field that is missing, [null], or not a string. *)
Definition notAString (v : JsVal) : Prop := typeof v <> "string".

(** The error text in the spec's words: the first literal text found in the
    content array, ['Unknown error'] when there is none. *)
Definition specErrorText (items : list JsVal) : string :=
  match List.find McpTool.isTextContent items with
  | Some item => textOf item
  | None => "Unknown error"
  end.

(** The effect [e] of a run of the inner loop from the initial state,
    replayed on top of a state [st]. *)
Definition absorb (st e : McpTool.state) : McpTool.state :=
  {| McpTool.result := McpTool.result st;
     McpTool.hasTransformedContent :=
       McpTool.hasTransformedContent st || McpTool.hasTransformedContent e;
     McpTool.currentPartHasMedia :=
       McpTool.currentPartHasMedia e || McpTool.currentPartHasMedia st;
     McpTool.currentPartItems :=
       McpTool.currentPartItems st ++ McpTool.currentPartItems e |}.

(** What the inner loop guarantees about its own variables. *)
Definition loopInvariant (e : McpTool.state) : Prop :=
  McpTool.result e = []
  /\ McpTool.hasTransformedContent e
     = (0 <? length (McpTool.currentPartItems e))
  /\ McpTool.currentPartHasMedia e
     = existsb isInlineData (McpTool.currentPartItems e).

(** [emits part its]: [part] is a plain part and per-block processing of
    its content array runs to completion, emitting the items [its]. *)
Definition emits (part : JsVal) (its : list JsVal) : Prop :=
  exists items, plainPart part items /\ contentParts items = Returns its.

(** The three ways in which a part of the response contributes to the
    result, with the value it gives to [hasTransformedContent]: its items
    (and header), the error line, or the part itself when it is not a
    function response with a content array. *)
Inductive contribution (this : DiscoveredMCPTool) (part : JsVal)
  : list JsVal -> bool -> Prop :=
| contributes_items (its : list JsVal) :
    emits part its ->
    contribution this part (withHeader this its) (0 <? length its)
| contributes_error (items : list JsVal) :
    errorPart part items ->
    contribution this part
      [textPart
         (JStr ("Error from " +:+ serverToolName this +:+ ": "
                +:+ ToString
                      (js_or (opt_member
                                (Array_find McpTool.isTextContent items)
                                "text")
                             (JStr "Unknown error"))))]
      true
| contributes_itself (functionResponse : JsVal) :
    member part "functionResponse" = Returns functionResponse ->
    truthy functionResponse = false
    \/ isArray (opt_member (field functionResponse "response") "content")
       = false ->
    contribution this part [part] false.


(** A legacy block: no type discriminator, and a [text] field. *)
Definition isLegacyBlock (block text : JsVal) : Prop :=
  member block "text" = Returns text
  /\ truthy (field block "type") = false.

(** What [flatMap] and [filter] keep of one callback result. *)
Definition kept (v : JsVal) : list JsVal :=
  List.filter (fun part => negb (is_null part)) (Part000.flatten v).

(** The tool name the alternate transformer reads off the response. *)
Definition toolNameOf (part : JsVal) : JsVal :=
  js_or (opt_member (opt_member part "functionResponse") "name")
        (JStr "unknown tool").

(** Neither [null] nor [undefined]: a value whose properties can be read. *)
Definition readable (v : JsVal) : Prop := v <> JNull /\ v <> JUndefined.

(** ** Concrete inputs, from the test suite and the spec's scenarios *)

(** ['x'.repeat(80)] *)
Definition longName : string := string_of_list_ascii (repeat "x"%char 80).

Definition toolT : DiscoveredMCPTool := mkTool "s" "t".

Definition emptyContent : JsVal := functionResponsePart "t" [("content", JArr [])].

Definition notFound : JsVal :=
  functionResponsePart "t"
    [("isError", JBool true); ("content", JArr [textBlock "not found"])].

Definition emptyFirstText : list JsVal :=
  [textBlock EmptyString; textBlock "real"].

Definition emptyFirstTextError : JsVal :=
  functionResponsePart "t"
    [("isError", JBool true); ("content", JArr emptyFirstText)].

Definition imageAAA : JsVal := mediaBlock "image" (JStr "AAA") (JStr "image/png").

Definition nullMimeType : JsVal := mediaBlock "image" (JStr "someData") JNull.

Definition firstResponse : JsVal :=
  functionResponsePart "t" [("content", JArr [textBlock "First response"])].

Definition imageResponse : JsVal :=
  functionResponsePart "t" [("content", JArr [imageAAA])].


Definition blobOnly : JsVal := resourceBlock [("uri", JStr "u"); ("blob", JStr "B")].

(** [{text: 'hello'}]: an untyped block whose text is not JSON. *)
Definition helloWrapper : JsVal := JObj [("text", JStr "hello")].

(** The same block, JSON-encoded inside the text of another untyped block. *)
Definition wrappedTwice : JsVal :=
  JObj [("text",
         JStr ("{" +:+ Json.dq +:+ "text" +:+ Json.dq +:+ ":"
               +:+ Json.dq +:+ "hello" +:+ Json.dq +:+ "}"))].

Definition nullBlock : JsVal := functionResponsePart "t" [("content", JArr [JNull])].

Definition trustedT : DiscoveredMCPTool :=
  {| serverName := "s"; serverToolName := "t"; timeout := None;
     trust := Some true; nameOverride := None |}.

(** The confirmation that [toolT] obtains from an empty allow-list. *)
Definition pendingT : ToolMcpConfirmationDetails :=
  {| type_ := "mcp";
     title := "Confirm MCP Tool Execution";
     details_serverName := "s";
     toolName := "t";
     toolDisplayName := "t";
     serverAllowListKey := "s";
     toolAllowListKey := "s.t" |}.


(** [{text: ''}]: an untyped block with an empty text. *)
Definition emptyText : JsVal := JObj [("text", JStr EmptyString)].

Definition errorWithoutText : JsVal :=
  functionResponsePart "t" [("isError", JBool true); ("content", JArr [])].

(** Further concrete inputs. *)

Definition otherT : DiscoveredMCPTool := mkTool "s" "other".

(** A tool of the server whose name is [toolT]'s tool-scope key. *)
Definition toolOfST : DiscoveredMCPTool := mkTool "s.t" "x".

(** The two shapes of part that per-block processing builds. *)
Definition canonicalPart (p : JsVal) : Prop :=
  (exists text : string, p = textPart (JStr text))
  \/ exists data mimeType, p = inlineDataPart data mimeType.

(** [{type: 'resource', resource: null, ...}] *)
Definition nullResource (item : JsVal) : Prop :=
  exists fields,
    item = JObj fields /\ field item "type" = JStr "resource"
    /\ field item "resource" = JNull.


(** An old-style block: a [text] string and no [type] key. *)
Definition legacyText (item : JsVal) : Prop :=
  has "type" item = false /\ exists s, field item "text" = JStr s.

Definition nullResourceBlock : JsVal :=
  JObj [("type", JStr "resource"); ("resource", JNull)].

Definition customBlock : JsVal :=
  JObj [("type", JStr "custom"); ("data", JStr "someData")].

Definition noteAndError : list JsVal :=
  [JObj [("text", JStr "note")]; notFound; imageResponse].

Definition legacyResponse : JsVal :=
  functionResponsePart "t" [("content", JArr [helloWrapper])].

(** [null] or [undefined]. *)
Definition nullish (v : JsVal) : Prop := v = JNull \/ v = JUndefined.

(** The block types that the alternate revision's switch handles. *)
Definition switchTypes : list string :=
  ["text"; "image"; "audio"; "resource"; "resource_link"].

(** [{text: 'null'}]: an untyped block whose text is the JSON of [null]. *)
Definition jsonNullBlock : JsVal := JObj [("text", JStr "null")].

Definition videoBlock : JsVal := mediaBlock "video" (JStr "AAA") (JStr "video/mp4").

(** ** Facts about strings used below *)

Lemma length_append (s t : string) :
  String.length (s +:+ t) = String.length s + String.length t.
Proof. induction s as [|c s IH]; simpl; [reflexivity | now rewrite IH]. Qed.

Lemma list_ascii_substring (s : string) :
  forall n m,
    list_ascii_of_string (substring n m s)
    = firstn m (skipn n (list_ascii_of_string s)).
Proof.
  induction s as [|c s IH]; intros n m; simpl.
  - destruct n, m; reflexivity.
  - destruct n as [|n]; simpl.
    + destruct m as [|m]; simpl; [reflexivity|].
      f_equal. apply (IH 0 m).
    + apply IH.
Qed.

Lemma length_list_ascii (s : string) :
  length (list_ascii_of_string s) = String.length s.
Proof. induction s as [|c s IH]; simpl; [reflexivity | now rewrite IH]. Qed.

Lemma list_ascii_inj (s t : string) :
  list_ascii_of_string s = list_ascii_of_string t -> s = t.
Proof.
  intros H. rewrite <- (string_of_list_ascii_of_string s),
    <- (string_of_list_ascii_of_string t). now rewrite H.
Qed.

Lemma length_substring (s : string) (n m : nat) :
  n + m <= String.length s -> String.length (substring n m s) = m.
Proof.
  intros H. rewrite <- length_list_ascii, list_ascii_substring.
  rewrite length_firstn, length_skipn, length_list_ascii. lia.
Qed.

Lemma list_ascii_append (s t : string) :
  list_ascii_of_string (s +:+ t)
  = list_ascii_of_string s ++ list_ascii_of_string t.
Proof. induction s as [|c s IH]; simpl; [reflexivity | now rewrite IH]. Qed.

Lemma allValid_append (s t : string) :
  allValid (s +:+ t) <-> allValid s /\ allValid t.
Proof. unfold allValid. rewrite list_ascii_append. apply Forall_app. Qed.

Lemma length_replaceInvalid (s : string) :
  String.length (replaceInvalid s) = String.length s.
Proof. induction s as [|c s IH]; simpl; [reflexivity | now rewrite IH]. Qed.

Lemma allValid_replaceInvalid (s : string) : allValid (replaceInvalid s).
Proof.
  unfold allValid. induction s as [|c s IH]; simpl; constructor; try exact IH.
  destruct (validChar c) eqn:E; [exact E | reflexivity].
Qed.

(** C10: for every input string, [generateValidName] returns a string of at
    most 63 characters, all drawn from [[a-zA-Z0-9_.-]]; when the sanitized
    name is longer than 63 characters, the result is its first 28
    characters, then ['___'], then its last 32 characters. *)
Theorem generateValidName_valid (name : string) :
  String.length (generateValidName name) <= 63
  /\ allValid (generateValidName name)
  /\ (63 < String.length (replaceInvalid name) ->
      exists first middle last,
        replaceInvalid name = first +:+ middle +:+ last
        /\ String.length first = 28 /\ String.length last = 32
        /\ generateValidName name = first +:+ "___" +:+ last).
Proof.
  unfold generateValidName, slice_first, slice_last.
  set (v := replaceInvalid name).
  assert (Hv : allValid v) by apply allValid_replaceInvalid.
  destruct (63 <? String.length v)%nat eqn:E.
  - apply Nat.ltb_lt in E.
    assert (Hsplit : v = substring 0 28 v
                         +:+ substring 28 (String.length v - 60) v
                         +:+ substring (String.length v - 32) 32 v).
    { apply list_ascii_inj. rewrite !list_ascii_append, !list_ascii_substring.
      pose proof (length_list_ascii v) as Hl.
      set (l := list_ascii_of_string v) in *. simpl skipn at 1.
      rewrite (firstn_all2 (n := 32)) by (rewrite length_skipn; lia).
      replace (String.length v - 32) with (String.length v - 60 + 28) by lia.
      rewrite <- (skipn_skipn (String.length v - 60) 28 l).
      now rewrite firstn_skipn, firstn_skipn. }
    split; [|split].
    + rewrite !length_append, !length_substring by lia. simpl. lia.
    + rewrite Hsplit in Hv. apply allValid_append in Hv as [H1 Hv].
      apply allValid_append in Hv as [_ H3].
      apply allValid_append. split; [exact H1|].
      apply allValid_append. split; [|exact H3].
      repeat constructor.
    + intros _. eexists _, _, _. split; [exact Hsplit|].
      rewrite !length_substring by lia. auto.
  - apply Nat.ltb_ge in E. split; [exact E|]. split; [exact Hv|]. lia.
Qed.

Lemma generateValidName_valid_witness :
  63 < String.length (replaceInvalid longName)
  /\ String.length (generateValidName longName) <= 63
  /\ allValid (generateValidName longName)
  /\ exists first middle last,
       replaceInvalid longName = first +:+ middle +:+ last
       /\ String.length first = 28 /\ String.length last = 32
       /\ generateValidName longName = first +:+ "___" +:+ last.
Proof.
  assert (H : 63 < String.length (replaceInvalid longName))
    by (vm_compute; lia).
  destruct (generateValidName_valid longName) as (A & B & C).
  split; [exact H|]. split; [exact A|]. split; [exact B|]. exact (C H).
Defined.

(** ** The inner loop of [transformMcpResponse] *)

Ltac split_ifs :=
  repeat match goal with
         | |- context [if ?c then _ else _] => destruct c
         end.

Section InnerLoop.
Import McpTool.

Lemma absorb_initial (st : state) : absorb st initial = st.
Proof.
  destruct st; unfold absorb; simpl.
  now rewrite orb_false_r, app_nil_r.
Qed.

Lemma pushItem_absorb (media : bool) (p : JsVal) (st : state) :
  pushItem media p st = absorb st (pushItem media p initial).
Proof.
  unfold pushItem, absorb; simpl.
  now rewrite orb_true_r, orb_false_r.
Qed.

Lemma absorb_assoc (st e1 e2 : state) :
  absorb (absorb st e1) e2 = absorb st (absorb e1 e2).
Proof.
  unfold absorb; simpl.
  now rewrite orb_assoc, orb_assoc, app_assoc.
Qed.

(** One iteration only adds to the loop variables. *)
Lemma transformItem_absorb (st : state) (item : JsVal) :
  transformItem st item
  = (e <- transformItem initial item ;; Returns (absorb st e)).
Proof.
  unfold transformItem.
  destruct (isTextContent item);
    [simpl; now rewrite pushItem_absorb|].
  destruct (isMediaContent item).
  { split_ifs; simpl; now rewrite pushItem_absorb. }
  destruct (isResourceContent item) as [[|]|err]; simpl; [| |reflexivity].
  - split_ifs; simpl; now rewrite pushItem_absorb.
  - split_ifs; simpl; try now rewrite pushItem_absorb.
    now rewrite absorb_initial.
Qed.

Lemma foldM_transformItem_absorb (items : list JsVal) :
  forall st,
    foldM transformItem st items
    = (e <- foldM transformItem initial items ;; Returns (absorb st e)).
Proof.
  induction items as [|item items IH]; intros st; simpl.
  - now rewrite absorb_initial.
  - rewrite transformItem_absorb.
    destruct (transformItem initial item) as [e1|err]; simpl; [|reflexivity].
    rewrite (IH (absorb st e1)), (IH e1).
    destruct (foldM transformItem initial items) as [e2|err]; simpl;
      [|reflexivity].
    now rewrite absorb_assoc.
Qed.

Lemma loopInvariant_initial : loopInvariant initial.
Proof. repeat split. Qed.

Lemma loopInvariant_pushItem_text (text : JsVal) :
  loopInvariant (pushItem false (textPart text) initial).
Proof. repeat split. Qed.

Lemma loopInvariant_pushItem_inline (data mimeType : JsVal) :
  loopInvariant (pushItem true (inlineDataPart data mimeType) initial).
Proof. repeat split. Qed.

Lemma loopInvariant_transformItem (item : JsVal) (e : state) :
  transformItem initial item = Returns e -> loopInvariant e.
Proof.
  unfold transformItem.
  destruct (isTextContent item).
  { intros [= <-]. apply loopInvariant_pushItem_text. }
  destruct (isMediaContent item).
  { split_ifs; intros [= <-];
      (apply loopInvariant_pushItem_text || apply loopInvariant_pushItem_inline). }
  destruct (isResourceContent item) as [[|]|err]; simpl; [| |discriminate].
  - split_ifs; intros [= <-];
      (apply loopInvariant_pushItem_text || apply loopInvariant_pushItem_inline).
  - split_ifs; intros [= <-];
      (apply loopInvariant_pushItem_text || apply loopInvariant_initial).
Qed.

Lemma loopInvariant_absorb (e1 e2 : state) :
  loopInvariant e1 -> loopInvariant e2 -> loopInvariant (absorb e1 e2).
Proof.
  intros (R1 & T1 & M1) (R2 & T2 & M2). unfold loopInvariant, absorb; simpl.
  rewrite T1, T2, M1, M2, existsb_app, length_app. repeat split.
  - exact R1.
  - destruct (currentPartItems e1), (currentPartItems e2); reflexivity.
  - apply orb_comm.
Qed.

Lemma loopInvariant_foldM (items : list JsVal) :
  forall e, foldM transformItem initial items = Returns e -> loopInvariant e.
Proof.
  induction items as [|item items IH]; simpl; intros e.
  - intros [= <-]. apply loopInvariant_initial.
  - destruct (transformItem initial item) as [e1|err] eqn:E1; simpl;
      [|discriminate].
    rewrite foldM_transformItem_absorb.
    destruct (foldM transformItem initial items) as [e2|err] eqn:E2; simpl;
      [|discriminate].
    intros [= <-]. apply loopInvariant_absorb.
    + eapply loopInvariant_transformItem; eassumption.
    + now apply IH.
Qed.

(** The emitted items of a content array are those of its first block
    followed by those of the rest. *)
Lemma contentParts_cons (item : JsVal) (items : list JsVal) :
  contentParts (item :: items)
  = (ps <- contentParts [item] ;; qs <- contentParts items ;;
     Returns (ps ++ qs)).
Proof.
  unfold contentParts; simpl.
  destruct (transformItem initial item) as [e1|err]; simpl; [|reflexivity].
  rewrite foldM_transformItem_absorb.
  destruct (foldM transformItem initial items) as [e2|err]; reflexivity.
Qed.

End InnerLoop.

(** ** The outer loop of [transformMcpResponse] *)

Section OuterLoop.
Import McpTool.
Variable this : DiscoveredMCPTool.

Lemma member_opt_member (v fr : JsVal) (k : string) :
  member v k = Returns fr -> opt_member v k = fr.
Proof. destruct v; simpl; congruence. Qed.

Lemma opt_member_truthy (v : JsVal) (k : string) :
  truthy v = true -> opt_member v k = field v k.
Proof. destruct v; simpl; congruence. Qed.

Lemma transformPart_plain (st : state) (part : JsVal) (its : list JsVal) :
  emits part its ->
  exists st',
    transformPart this st part = Returns st'
    /\ result st' = result st ++ withHeader this its
    /\ hasTransformedContent st'
       = hasTransformedContent st || (0 <? length its).
Proof.
  intros (items & ((fr & Hm & Ht & Hc) & He) & Hits).
  unfold errorFlag in He. rewrite (member_opt_member _ _ _ Hm) in He.
  unfold transformPart. rewrite Hm; simpl. rewrite Ht; simpl.
  rewrite Hc, He. rewrite foldM_transformItem_absorb.
  unfold contentParts in Hits.
  destruct (foldM transformItem initial items) as [e|err] eqn:E; simpl in *;
    [|discriminate].
  injection Hits as <-.
  destruct (loopInvariant_foldM _ _ E) as (_ & HT & HM).
  rewrite orb_false_r, HM. unfold withHeader.
  destruct (existsb isInlineData (currentPartItems e)) eqn:X; simpl.
  - destruct (currentPartItems e) as [|p ps] eqn:Y; [discriminate|].
    simpl. eexists; split; [reflexivity|]. simpl. rewrite HT, Y.
    split; [|reflexivity]. now rewrite <- app_assoc.
  - eexists; split; [reflexivity|]. simpl. now rewrite HT.
Qed.

Lemma transformPart_error (st : state) (part : JsVal) (items : list JsVal) :
  errorPart part items ->
  exists st',
    transformPart this st part = Returns st'
    /\ result st'
       = result st
         ++ [textPart
               (JStr ("Error from " +:+ serverToolName this +:+ ": "
                      +:+ ToString
                            (js_or (opt_member (Array_find isTextContent items)
                                      "text")
                                   (JStr "Unknown error"))))]
    /\ hasTransformedContent st' = true.
Proof.
  intros ((fr & Hm & Ht & Hc) & He).
  unfold errorFlag in He. rewrite (member_opt_member _ _ _ Hm) in He.
  unfold transformPart. rewrite Hm; simpl. rewrite Ht; simpl.
  rewrite Hc, He. eexists; split; [reflexivity|]. simpl. auto.
Qed.

Lemma foldM_transformPart_plain (parts : list JsVal)
    (itss : list (list JsVal)) :
  Forall2 emits parts itss ->
  forall st, exists st',
    foldM (transformPart this) st parts = Returns st'
    /\ result st' = result st ++ concat (map (withHeader this) itss)
    /\ hasTransformedContent st'
       = hasTransformedContent st || (0 <? length (concat itss)).
Proof.
  induction 1 as [|part its parts itss Hp _ IH]; intros st; simpl.
  - exists st. now rewrite app_nil_r, orb_false_r.
  - destruct (transformPart_plain st part its Hp) as (st1 & E1 & R1 & T1).
    rewrite E1; simpl.
    destruct (IH st1) as (st2 & E2 & R2 & T2).
    exists st2. split; [exact E2|]. rewrite R2, R1, T2, T1, length_app.
    split; [now rewrite <- app_assoc|].
    rewrite <- orb_assoc. f_equal.
    destruct its, (concat itss); reflexivity.
Qed.

(** A response of plain parts in which some block emitted something is
    turned into the parts' items, part after part, each part's items
    preceded by the header when one of them is binary. *)
Lemma transformMcpResponse_plain (parts : list JsVal)
    (itss : list (list JsVal)) :
  Forall2 emits parts itss ->
  transformMcpResponse this parts
  = Returns (if (0 <? length (concat itss))%nat
             then concat (map (withHeader this) itss) else parts).
Proof.
  intros H. unfold transformMcpResponse.
  destruct (foldM_transformPart_plain parts itss H initial)
    as (st & E & R & T).
  rewrite E; simpl. now rewrite T, R.
Qed.

Lemma transformPart_itself (st : state) (part fr : JsVal) :
  member part "functionResponse" = Returns fr ->
  truthy fr = false
  \/ isArray (opt_member (field fr "response") "content") = false ->
  exists st',
    transformPart this st part = Returns st'
    /\ result st' = result st ++ [part]
    /\ hasTransformedContent st' = hasTransformedContent st.
Proof.
  intros Hm H. unfold transformPart. rewrite Hm; cbn [bind].
  destruct (truthy fr) eqn:Ht; cbn [negb].
  - destruct H as [H|H]; [discriminate|].
    destruct (opt_member (field fr "response") "content");
      try discriminate; eexists; split; reflexivity || (split; reflexivity).
  - eexists; split; [reflexivity|]. split; reflexivity.
Qed.

Lemma transformPart_contribution (st : state) (part : JsVal)
    (out : list JsVal) (transformed : bool) :
  contribution this part out transformed ->
  exists st',
    transformPart this st part = Returns st'
    /\ result st' = result st ++ out
    /\ hasTransformedContent st' = hasTransformedContent st || transformed.
Proof.
  intros [its H|items H|fr Hm H].
  - apply transformPart_plain, H.
  - destruct (transformPart_error st part items H) as (st' & E & R & T).
    exists st'. rewrite T, orb_true_r. auto.
  - destruct (transformPart_itself st part fr Hm H) as (st' & E & R & T).
    exists st'. rewrite T, orb_false_r. auto.
Qed.

(** The whole function, part by part: the result is the concatenation of
    the parts' contributions if one of them transformed something, and the
    response itself otherwise. *)
Lemma transformMcpResponse_contributions (parts : list JsVal)
    (cs : list (list JsVal * bool)) :
  Forall2 (fun part c => contribution this part (fst c) (snd c)) parts cs ->
  transformMcpResponse this parts
  = Returns (if existsb snd cs then concat (map fst cs) else parts).
Proof.
  intros H. unfold transformMcpResponse.
  assert (G : forall st, exists st',
             foldM (transformPart this) st parts = Returns st'
             /\ result st' = result st ++ concat (map fst cs)
             /\ hasTransformedContent st'
                = hasTransformedContent st || existsb snd cs).
  { induction H as [|part [out tr] parts cs Hc _ IH]; intros st;
      cbn [foldM map concat existsb fst snd].
    - exists st. now rewrite app_nil_r, orb_false_r.
    - destruct (transformPart_contribution st part out tr Hc)
        as (st1 & E1 & R1 & T1).
      rewrite E1; cbn [bind].
      destruct (IH st1) as (st2 & E2 & R2 & T2).
      exists st2. split; [exact E2|]. rewrite R2, R1, T2, T1.
      split; [now rewrite <- app_assoc | now rewrite orb_assoc]. }
  destruct (G initial) as (st & E & R & T).
  rewrite E; cbn [bind]. now rewrite T, R.
Qed.

End OuterLoop.

(** ** The display functions on a single plain part *)

Section DisplayFacts.
Variable JSON_stringify : JsVal -> option string.

Lemma McpTool_display_content (part : JsVal) (items : list JsVal) :
  responsePart part items ->
  McpTool.getStringifiedResultForDisplay JSON_stringify [part]
  = Returns
      (let processed := map McpTool.processItem items in
       if forallb isString processed then Array_join nl processed
       else fenced (JSON_stringify (JArr processed))).
Proof.
  intros (fr & Hm & Ht & Hc).
  unfold McpTool.getStringifiedResultForDisplay; simpl.
  unfold McpTool.processFunctionResponse. rewrite Hm; simpl.
  rewrite Ht, Hc. fold isString.
  destruct (forallb isString (map McpTool.processItem items)); reflexivity.
Qed.

Lemma Part000_content (part : JsVal) (items : list JsVal)
    (rest : list JsVal) :
  responsePart part items ->
  opt_member (opt_member (opt_member (Part000.first (part :: rest))
                            "functionResponse") "response") "content"
  = JArr items.
Proof.
  intros (fr & Hm & Ht & Hc). simpl.
  rewrite (member_opt_member _ _ _ Hm), (opt_member_truthy _ _ Ht).
  exact Hc.
Qed.

Lemma Array_join_strings (sep : string) (l : list string) :
  Array_join sep (map JStr l) = String.concat sep l.
Proof.
  induction l as [|x [|y l] IH]; simpl in *; [reflexivity..|].
  now rewrite IH.
Qed.

End DisplayFacts.

(** ** The confirmation gate *)

Section Gate.

Lemma shouldConfirmExecute_keys (this : DiscoveredMCPTool)
    (allowlist : gset string) (details : ToolMcpConfirmationDetails) :
  shouldConfirmExecute this allowlist = Some details ->
  serverAllowListKey details = serverName this
  /\ toolAllowListKey details
     = serverName this +:+ "." +:+ serverToolName this.
Proof.
  unfold shouldConfirmExecute.
  destruct (match trust this with Some b => b | None => false end);
    [discriminate|].
  destruct (bool_decide _ || bool_decide _); [discriminate|].
  intros [= <-]. split; reflexivity.
Qed.

Lemma onConfirm_grows (details : ToolMcpConfirmationDetails)
    (outcome : ToolConfirmationOutcome) (allowlist : gset string) :
  allowlist ⊆ onConfirm details outcome allowlist.
Proof. destruct outcome; simpl; set_solver. Qed.

Lemma resolveAll_grows
    (later : list (ToolMcpConfirmationDetails * ToolConfirmationOutcome)) :
  forall allowlist : gset string, allowlist ⊆ resolveAll allowlist later.
Proof.
  unfold resolveAll.
  induction later as [|[d o] later IH]; intros allowlist; simpl.
  - set_solver.
  - etransitivity; [apply (onConfirm_grows d o)|apply IH].
Qed.

Lemma shouldConfirmExecute_listed_server (this : DiscoveredMCPTool)
    (allowlist : gset string) :
  serverName this ∈ allowlist -> shouldConfirmExecute this allowlist = None.
Proof.
  intros H. unfold shouldConfirmExecute.
  destruct (match trust this with Some b => b | None => false end);
    [reflexivity|].
  now rewrite (bool_decide_eq_true_2 _ H).
Qed.

(** C2: a trusted tool is allowed whatever the allow-list holds; once
    ProceedAlwaysServer has been resolved for a server, every later
    decision for any tool of that server is Allowed; ProceedAlwaysTool adds
    the key [<serverId>.<toolId>]; ProceedOnce and Cancel leave the
    allow-list as it was (same members, same size). *)
Theorem allowlist_gate :
  (forall (this : DiscoveredMCPTool) (allowlist : gset string),
      trust this = Some true -> shouldConfirmExecute this allowlist = None)
  /\ (forall (this other : DiscoveredMCPTool) (seen allowlist : gset string)
         details later,
        shouldConfirmExecute this seen = Some details ->
        serverName other = serverName this ->
        shouldConfirmExecute other
          (resolveAll (onConfirm details ProceedAlwaysServer allowlist) later)
        = None)
  /\ (forall (this : DiscoveredMCPTool) (seen allowlist : gset string) details,
        shouldConfirmExecute this seen = Some details ->
        onConfirm details ProceedAlwaysTool allowlist
        = allowlist ∪ {[ serverName this +:+ "." +:+ serverToolName this ]})
  /\ (forall details (allowlist : gset string) outcome,
        outcome = ProceedOnce \/ outcome = Cancel ->
        onConfirm details outcome allowlist = allowlist
        /\ size (onConfirm details outcome allowlist) = size allowlist
        /\ (forall key, key ∈ onConfirm details outcome allowlist
                        <-> key ∈ allowlist)).
Proof.
  split; [|split; [|split]].
  - intros this allowlist H. unfold shouldConfirmExecute. now rewrite H.
  - intros this other seen allowlist details later Hd Hs.
    apply shouldConfirmExecute_listed_server.
    apply shouldConfirmExecute_keys in Hd as [Hk _].
    apply (resolveAll_grows later). simpl. rewrite Hk, Hs. set_solver.
  - intros this seen allowlist details Hd.
    apply shouldConfirmExecute_keys in Hd as [_ Hk]. simpl. now rewrite Hk.
  - intros details allowlist outcome [-> | ->]; simpl; repeat split; auto.
Qed.

Lemma allowlist_gate_witness :
  shouldConfirmExecute trustedT ∅ = None
  /\ shouldConfirmExecute (mkTool "s" "other")
       (resolveAll (onConfirm pendingT ProceedAlwaysServer ∅)
          [(pendingT, Cancel)]) = None
  /\ onConfirm pendingT ProceedAlwaysTool ∅ = ∅ ∪ {[ "s.t" ]}
  /\ onConfirm pendingT Cancel ∅ = ∅.
Proof.
  assert (H : shouldConfirmExecute toolT ∅ = Some pendingT)
    by (vm_compute; reflexivity).
  destruct allowlist_gate as (G1 & G2 & G3 & G4).
  split; [|split; [|split]].
  - apply G1. reflexivity.
  - apply (G2 toolT (mkTool "s" "other") ∅ ∅ pendingT [(pendingT, Cancel)] H).
    reflexivity.
  - apply (G3 toolT ∅ ∅ pendingT H).
  - apply (G4 pendingT ∅ Cancel). right. reflexivity.
Defined.

End Gate.

(** ** Whole-response fallback *)

Section Fallback.
Variable this : DiscoveredMCPTool.
Variable JSON_stringify : JsVal -> option string.





End Fallback.




(** The alternate revision has no fallback: an empty content array gives an
    empty list of parts, and a response without parts gives the
    could-not-parse part. *)
Lemma Part000_empty_content (JSON_parse : string -> outcome JsVal)
    (part : JsVal) (rest : list JsVal) :
  responsePart part [] ->
  Part000.transformMcpContentToParts JSON_parse (part :: rest) = Returns []
  /\ Part000.transformMcpContentToParts JSON_parse []
     = Returns [textPart (JStr "[Error: Could not parse tool response]")].
Proof.
  intros H. split; [|reflexivity].
  unfold Part000.transformMcpContentToParts.
  now rewrite (Part000_content part [] rest H).
Qed.

(** ** Text blocks *)

Section TextBlocks.
Import McpTool.

Lemma isTextContent_inv (item : JsVal) :
  isTextContent item = true ->
  exists fields,
    item = JObj fields /\ field item "type" = JStr "text"
    /\ field item "text" = JStr (textOf item).
Proof.
  unfold isTextContent, textOf. intros H.
  repeat (apply andb_prop in H as [H ?]).
  destruct item as [| | | | | |fields]; try discriminate.
  exists fields. split; [reflexivity|]. split.
  - destruct (field (JObj fields) "type") as [| | | |ty| |]; try discriminate.
    simpl in *. f_equal. now apply String.eqb_eq.
  - destruct (field (JObj fields) "text"); try discriminate. reflexivity.
Qed.

Lemma find_none (items : list JsVal) :
  (forall item, In item items -> isTextContent item = false) ->
  List.find isTextContent items = None.
Proof.
  induction items as [|x items IH]; intros H; simpl; [reflexivity|].
  rewrite (H x (or_introl eq_refl)). apply IH. intros y Hy. apply H. now right.
Qed.

Lemma find_first (before after : list JsVal) (item : JsVal) :
  (forall b, In b before -> isTextContent b = false) ->
  isTextContent item = true ->
  List.find isTextContent (before ++ item :: after) = Some item.
Proof.
  induction before as [|x before IH]; intros H Hi; simpl.
  - now rewrite Hi.
  - rewrite (H x (or_introl eq_refl)). apply IH; [|exact Hi].
    intros y Hy. apply H. now right.
Qed.

Lemma contentParts_text (item : JsVal) :
  isTextContent item = true ->
  contentParts [item] = Returns [textPart (JStr (textOf item))].
Proof.
  intros H. unfold contentParts; simpl. unfold transformItem. rewrite H.
  destruct (isTextContent_inv item H) as (fs & _ & _ & ->). reflexivity.
Qed.

Lemma contentParts_texts (items : list JsVal) :
  Forall (fun item => isTextContent item = true) items ->
  contentParts items
  = Returns (map (fun item => textPart (JStr (textOf item))) items).
Proof.
  induction 1 as [|item items Hi _ IH]; [reflexivity|].
  rewrite contentParts_cons, (contentParts_text item Hi), IH. reflexivity.
Qed.

Lemma existsb_inline_texts (items : list JsVal) :
  existsb isInlineData
    (map (fun item => textPart (JStr (textOf item))) items) = false.
Proof. induction items; simpl; auto. Qed.

Lemma processItem_text (item : JsVal) :
  isTextContent item = true -> processItem item = JStr (textOf item).
Proof.
  intros H. destruct (isTextContent_inv item H) as (fs & -> & Hty & Htx).
  unfold processItem.
  change (truthy (JObj fs)) with true.
  change (typeof (JObj fs)) with "object".
  rewrite Hty, Htx.
  destruct (textOf (JObj fs)); reflexivity.
Qed.

Lemma displayBlock_text (item : JsVal) :
  isTextContent item = true ->
  Part000.displayBlock item = Returns (JStr (textOf item)).
Proof.
  intros H. destruct (isTextContent_inv item H) as (fs & -> & Hty & Htx).
  unfold Part000.displayBlock.
  change (member (JObj fs) "type") with (Returns (field (JObj fs) "type")).
  rewrite Hty, Htx. reflexivity.
Qed.

End TextBlocks.

(** ** Error-flagged responses *)

Section ErrorFlag.
Variable this : DiscoveredMCPTool.

(** C3, as amended: a single-part response whose envelope has a content
    array and the error flag set yields exactly one part,
    [{text: "Error from <toolId>: <t>"}], whatever the blocks are; [<t>] is
    the text of the first text block when that text is not empty, and
    ['Unknown error'] when there is no text block or when the first text
    block's text is empty. *)
Theorem error_flagged_response (part : JsVal) (items : list JsVal) :
  errorPart part items ->
  exists t,
    McpTool.transformMcpResponse this [part]
    = Returns [textPart (JStr ("Error from " +:+ serverToolName this
                               +:+ ": " +:+ t))]
    /\ ((forall item, In item items -> McpTool.isTextContent item = false) ->
        t = "Unknown error")
    /\ (forall before item after,
          items = before ++ item :: after ->
          (forall b, In b before -> McpTool.isTextContent b = false) ->
          McpTool.isTextContent item = true ->
          t = if String.eqb (textOf item) EmptyString
              then "Unknown error" else textOf item).
Proof.
  intros H.
  destruct (transformPart_error this McpTool.initial part items H)
    as (st & E & R & T).
  eexists. split; [|split].
  - unfold McpTool.transformMcpResponse; simpl. rewrite E; simpl.
    rewrite T, R. reflexivity.
  - intros Hnone. unfold Array_find. now rewrite (find_none items Hnone).
  - intros before item after -> Hb Hi. unfold Array_find.
    rewrite (find_first before after item Hb Hi).
    destruct (isTextContent_inv item Hi) as (fs & Hfs & _ & Htx).
    rewrite (opt_member_truthy item "text") by (now rewrite Hfs).
    rewrite Htx. unfold js_or; simpl.
    destruct (String.eqb (textOf item) EmptyString); reflexivity.
Qed.

End ErrorFlag.

Lemma error_flagged_response_witness :
  McpTool.transformMcpResponse toolT [notFound]
  = Returns [textPart (JStr "Error from t: not found")]
  /\ McpTool.transformMcpResponse toolT [errorWithoutText]
     = Returns [textPart (JStr "Error from t: Unknown error")].
Proof.
  assert (H : errorPart notFound [textBlock "not found"]).
  { split; [|reflexivity].
    eexists. split; [reflexivity|]. split; reflexivity. }
  assert (H' : errorPart errorWithoutText []).
  { split; [|reflexivity].
    eexists. split; [reflexivity|]. split; reflexivity. }
  split.
  - destruct (error_flagged_response toolT notFound _ H) as (t & E & _ & F).
    rewrite E.
    rewrite (F [] (textBlock "not found") [] eq_refl
               (fun b (Hb : In b []) => match Hb with end) eq_refl).
    reflexivity.
  - destruct (error_flagged_response toolT errorWithoutText _ H')
      as (t & E & N & _).
    rewrite E.
    rewrite (N (fun item (Hi : In item []) => match Hi with end)).
    reflexivity.
Defined.

(** C3, as stated, fails when the first text block is empty: a literal text
    exists in the content array, and the part reads 'Unknown error'. *)
Lemma error_text_not_first_literal_text :
  McpTool.transformMcpResponse toolT [emptyFirstTextError]
  <> Returns [textPart (JStr ("Error from t: "
                              +:+ specErrorText emptyFirstText))].
Proof. vm_compute. discriminate. Qed.

(** The flag is honoured only when the envelope carries a content array:
    without one the part is kept as it is. *)
Lemma error_flag_without_content :
  McpTool.transformMcpResponse toolT
    [functionResponsePart "t" [("isError", JBool true)]]
  = Returns [functionResponsePart "t" [("isError", JBool true)]].
Proof. reflexivity. Qed.

(** ** Text-only content arrays *)

Section TextOnly.
Variable this : DiscoveredMCPTool.
Variable JSON_stringify : JsVal -> option string.

Lemma forallb_isString_strings (l : list string) :
  forallb isString (map JStr l) = true.
Proof. induction l; simpl; auto. Qed.

Lemma mapM_displayBlock_texts (items : list JsVal) :
  Forall (fun item => McpTool.isTextContent item = true) items ->
  mapM Part000.displayBlock items = Returns (map JStr (map textOf items)).
Proof.
  induction 1 as [|item items Hi _ IH]; simpl; [reflexivity|].
  now rewrite (displayBlock_text item Hi), IH.
Qed.

(** C4, as amended: for a non-empty content array of text blocks, in a
    response whose error flag is not set, the transformer returns exactly
    the texts as [{text}] parts, in order, with no header and nothing else;
    both display functions return the texts joined with newline (for the
    empty array as well, and whatever the error flag). *)
Theorem text_only_content (part : JsVal) (items : list JsVal) :
  responsePart part items ->
  Forall (fun item => McpTool.isTextContent item = true) items ->
  (items <> [] -> errorFlag part = false ->
   McpTool.transformMcpResponse this [part]
   = Returns (map (fun item => textPart (JStr (textOf item))) items))
  /\ McpTool.getStringifiedResultForDisplay JSON_stringify [part]
     = Returns (String.concat nl (map textOf items))
  /\ Part000.getStringifiedResultForDisplay JSON_stringify [part]
     = Returns (String.concat nl (map textOf items)).
Proof.
  intros Hpart Htexts. split; [|split].
  - intros Hne Hflag.
    assert (E : emits part
                  (map (fun item => textPart (JStr (textOf item))) items)).
    { exists items. split; [split; assumption|].
      now apply contentParts_texts. }
    assert (F : Forall2 emits [part]
                  [map (fun item => textPart (JStr (textOf item))) items])
      by (constructor; [exact E | constructor]).
    rewrite (transformMcpResponse_plain this _ _ F).
    simpl. rewrite !app_nil_r. unfold withHeader.
    rewrite existsb_inline_texts. destruct items; [contradiction|reflexivity].
  - rewrite (McpTool_display_content JSON_stringify part items Hpart).
    assert (P : map McpTool.processItem items = map JStr (map textOf items)).
    { clear Hpart. induction Htexts as [|item items Hi _ IH]; simpl;
        [reflexivity|]. now rewrite (processItem_text item Hi), IH. }
    cbv zeta. rewrite P, forallb_isString_strings.
    now rewrite Array_join_strings.
  - unfold Part000.getStringifiedResultForDisplay.
    rewrite (Part000_content part items [] Hpart).
    rewrite (mapM_displayBlock_texts items Htexts); simpl.
    now rewrite Array_join_strings.
Qed.

End TextOnly.

Lemma text_only_content_witness :
  McpTool.transformMcpResponse toolT [firstResponse]
  = Returns [textPart (JStr "First response")]
  /\ McpTool.getStringifiedResultForDisplay Json.stringify [firstResponse]
     = Returns "First response"
  /\ Part000.getStringifiedResultForDisplay Json.stringify [firstResponse]
     = Returns "First response".
Proof.
  assert (R : responsePart firstResponse [textBlock "First response"]).
  { eexists. split; [reflexivity|]. split; reflexivity. }
  assert (F : Forall (fun item => McpTool.isTextContent item = true)
                [textBlock "First response"]).
  { repeat constructor. }
  destruct (text_only_content toolT Json.stringify firstResponse _ R F)
    as (A & B & C).
  split; [|split; assumption].
  apply A; [discriminate | reflexivity].
Defined.

(** C4, as stated, fails on the empty array: the transformer hands back the
    response itself, not an empty list of parts. *)
Lemma text_only_content_empty_array :
  Forall (fun item => McpTool.isTextContent item = true) []
  /\ McpTool.transformMcpResponse toolT [emptyContent]
     <> Returns (map (fun item => textPart (JStr (textOf item))) []).
Proof. split; [constructor | vm_compute; discriminate]. Qed.

(** The alternate transformer turns every array of text blocks, empty or
    not, into the texts. *)
Lemma Part000_text_only (JSON_parse : string -> outcome JsVal)
    (part : JsVal) (items : list JsVal) :
  responsePart part items ->
  Forall (fun item => McpTool.isTextContent item = true) items ->
  Part000.transformMcpContentToParts JSON_parse [part]
  = Returns (map (fun item => textPart (JStr (textOf item))) items).
Proof.
  intros Hpart Htexts. unfold Part000.transformMcpContentToParts.
  rewrite (Part000_content part items [] Hpart).
  set (toolName := js_or _ _). clearbody toolName.
  assert (M : mapM (Part000.transformBlock JSON_parse toolName) items
              = Returns (map (fun item => textPart (JStr (textOf item)))
                           items)).
  { clear Hpart. induction Htexts as [|item items Hi _ IH]; simpl;
      [reflexivity|].
    rewrite IH.
    destruct (isTextContent_inv item Hi) as (fs & -> & Hty & Htx).
    unfold Part000.transformBlock, Part000.switchBlock.
    change (member (JObj fs) "text") with (Returns (field (JObj fs) "text")).
    change (member (JObj fs) "type") with (Returns (field (JObj fs) "type")).
    rewrite Hty, Htx. simpl. rewrite andb_false_r. reflexivity. }
  rewrite M. simpl. f_equal.
  clear. induction items as [|item items IH]; simpl; [reflexivity|].
  now rewrite IH.
Qed.

(** ** Media blocks *)

Section Media.
Import McpTool.
Variable this : DiscoveredMCPTool.

Lemma field_has (fields : list (string * JsVal)) (k : string) :
  field (JObj fields) k <> JUndefined -> has k (JObj fields) = true.
Proof. simpl. destruct (assoc k fields); congruence. Qed.

Lemma typeof_not_string (v : JsVal) :
  notAString v -> String.eqb (typeof v) "string" = false.
Proof. intros H. now apply String.eqb_neq. Qed.

Lemma plain_single (part item p : JsVal) :
  plainPart part [item] ->
  contentParts [item] = Returns [p] ->
  transformMcpResponse this [part] = Returns (withHeader this [p]).
Proof.
  intros Hp Hc.
  assert (F : Forall2 emits [part] [[p]]).
  { constructor; [|constructor]. exists [item]. now split. }
  rewrite (transformMcpResponse_plain this _ _ F). simpl.
  now rewrite !app_nil_r.
Qed.

(** C5, as amended: in mcp-tool.ts, a media block (type image, audio, video
    or pdf) whose [data] or [mimeType] is missing, [null] or not a string
    makes [transformMcpResponse] emit the placeholder
    [{text: "[Invalid media: missing data or mimeType]"}] for that block,
    and nothing else: no [inlineData] part, no header on its account. *)
Theorem invalid_media_placeholder (item : JsVal) :
  isMediaBlock item ->
  notAString (field item "data") \/ notAString (field item "mimeType") ->
  (forall st, transformItem st item = Returns (pushItem false invalidMedia st))
  /\ contentParts [item]
     = Returns [textPart (JStr "[Invalid media: missing data or mimeType]")]
  /\ (forall part,
        plainPart part [item] ->
        transformMcpResponse this [part]
        = Returns [textPart
                     (JStr "[Invalid media: missing data or mimeType]")]).
Proof.
  intros (fields & type & -> & Hty & Hin) Hbad.
  assert (Hitem : forall st,
             transformItem st (JObj fields)
             = Returns (pushItem false invalidMedia st)).
  { intros st. unfold transformItem.
    assert (Htext : isTextContent (JObj fields) = false).
    { unfold isTextContent. rewrite Hty.
      destruct Hin as [<-|[<-|[<-|[<-|[]]]]]; simpl;
        now rewrite !andb_false_r. }
    assert (Hincl : includes MCP_MEDIA_TYPES (JStr type) = true).
    { destruct Hin as [<-|[<-|[<-|[<-|[]]]]]; reflexivity. }
    assert (Hres : isResourceContent (JObj fields) = Returns false).
    { unfold isResourceContent. rewrite Hty.
      destruct Hin as [<-|[<-|[<-|[<-|[]]]]]; simpl;
        now rewrite !andb_false_r. }
    rewrite Htext.
    destruct (isMediaContent (JObj fields)).
    - assert (B : negb (truthy (field (JObj fields) "data"))
                  || negb (truthy (field (JObj fields) "mimeType"))
                  || negb (String.eqb (typeof (field (JObj fields) "data"))
                             "string")
                  || negb (String.eqb
                             (typeof (field (JObj fields) "mimeType"))
                             "string") = true).
      { destruct Hbad as [Hb|Hb]; rewrite (typeof_not_string _ Hb); simpl;
          now rewrite ?orb_true_r. }
      now rewrite B.
    - rewrite Hres; cbn [bind].
      change (truthy (JObj fields)) with true.
      change (typeof (JObj fields)) with "object".
      rewrite (field_has fields "type") by (rewrite Hty; discriminate).
      rewrite Hty. change (typeof (JStr type)) with "string".
      now rewrite Hincl. }
  assert (Hcontent : contentParts [JObj fields] = Returns [invalidMedia]).
  { unfold contentParts; simpl foldM. now rewrite Hitem. }
  split; [exact Hitem|]. split; [exact Hcontent|].
  intros part Hpart.
  now rewrite (plain_single part (JObj fields) invalidMedia Hpart Hcontent).
Qed.

End Media.

Lemma invalid_media_placeholder_witness :
  contentParts [nullMimeType]
  = Returns [textPart (JStr "[Invalid media: missing data or mimeType]")]
  /\ McpTool.transformMcpResponse toolT
       [functionResponsePart "t" [("content", JArr [nullMimeType])]]
     = Returns [textPart (JStr "[Invalid media: missing data or mimeType]")].
Proof.
  assert (M : isMediaBlock nullMimeType).
  { eexists _, "image". split; [reflexivity|]. split; [reflexivity|].
    left. reflexivity. }
  assert (B : notAString (field nullMimeType "data")
              \/ notAString (field nullMimeType "mimeType")).
  { right. vm_compute. discriminate. }
  destruct (invalid_media_placeholder toolT nullMimeType M B) as (_ & C & R).
  split; [exact C|]. apply R.
  split; [|reflexivity].
  eexists. split; [reflexivity|]. split; reflexivity.
Defined.

(** The alternate revision does not validate: the same block yields an
    informational line and an [inlineData] part with a [null] mime type. *)
Lemma Part000_no_media_validation :
  Part000.transformMcpContentToParts Json.parse
    [functionResponsePart "t" [("content", JArr [nullMimeType])]]
  = Returns
      [textPart (JStr "[Tool 't' provided the following image data with mime-type: null]");
       JObj [("inlineData",
              JObj [("mimeType", JNull); ("data", JStr "someData")])]].
Proof. reflexivity. Qed.

(** C5, as stated, fails in the alternate revision: for the block with
    [mimeType: null] an [inlineData] part is emitted, and the placeholder
    is not. *)
Lemma alternate_emits_invalid_media :
  exists out,
    Part000.transformMcpContentToParts Json.parse
      [functionResponsePart "t" [("content", JArr [nullMimeType])]]
    = Returns out
    /\ existsb isInlineData out = true
    /\ ~ In (textPart (JStr "[Invalid media: missing data or mimeType]")) out.
Proof.
  eexists. split; [reflexivity|]. split; [reflexivity|].
  simpl. intros [H|[H|[]]]; discriminate.
Qed.

(** ** The response header *)

Section Header.
Variable this : DiscoveredMCPTool.
Variable JSON_stringify : JsVal -> option string.

Lemma contains_refl (s : string) : contains s s.
Proof.
  exists EmptyString, EmptyString. change (s = s +:+ EmptyString).
  induction s as [|c s IH]; [reflexivity|].
  change (String c s = String c (s +:+ EmptyString)). now rewrite <- IH.
Qed.

(** A block emits at most one item. *)
Lemma contentParts_single (item : JsVal) (ps : list JsVal) :
  contentParts [item] = Returns ps -> ps = [] \/ exists p, ps = [p].
Proof.
  unfold contentParts. cbn [foldM]. unfold McpTool.transformItem.
  destruct (McpTool.isTextContent item);
    [intros [= <-]; right; eexists; reflexivity|].
  destruct (McpTool.isMediaContent item).
  { split_ifs; intros [= <-]; right; eexists; reflexivity. }
  destruct (McpTool.isResourceContent item) as [[|]|err]; cbn [bind];
    [| |discriminate].
  - split_ifs; intros [= <-]; right; eexists; reflexivity.
  - split_ifs; intros [= <-]; (left; reflexivity) || (right; eexists; reflexivity).
Qed.

(** The binary item of a block is [{inlineData: {data, mimeType}}]. *)
Lemma inline_part_shape (item p : JsVal) :
  contentParts [item] = Returns [p] ->
  isInlineData p = true ->
  exists data mimeType, p = inlineDataPart data mimeType.
Proof.
  unfold contentParts. cbn [foldM]. unfold McpTool.transformItem.
  destruct (McpTool.isTextContent item);
    [intros [= <-]; discriminate|].
  destruct (McpTool.isMediaContent item).
  { split_ifs; intros [= <-]; try discriminate; intros _;
      eexists _, _; reflexivity. }
  destruct (McpTool.isResourceContent item) as [[|]|err]; cbn [bind];
    [| |discriminate].
  - split_ifs; intros [= <-]; try discriminate; intros _;
      eexists _, _; reflexivity.
  - split_ifs; intros [= <-]; discriminate.
Qed.

(** An [inlineData] part among the emitted items comes from a block that
    emits it, and conversely. *)
Lemma inline_iff_block (items : list JsVal) :
  forall its,
    contentParts items = Returns its ->
    (existsb isInlineData its = true
     <-> exists item p,
           In item items /\ contentParts [item] = Returns [p]
           /\ isInlineData p = true).
Proof.
  induction items as [|x items IH]; intros its H.
  - injection H as <-. split; [discriminate|]. intros (? & ? & [] & _).
  - rewrite contentParts_cons in H.
    destruct (contentParts [x]) as [ps|err] eqn:E1; [|discriminate].
    destruct (contentParts items) as [qs|err] eqn:E2; [|discriminate].
    cbn [bind] in H. injection H as <-. rewrite existsb_app.
    specialize (IH qs eq_refl). split.
    + intros Hor. apply orb_prop in Hor as [Hp|Hq].
      * destruct (contentParts_single x ps E1) as [->|[p ->]];
          [discriminate|].
        exists x, p. split; [now left|]. split; [exact E1|].
        simpl in Hp. now rewrite orb_false_r in Hp.
      * apply IH in Hq as (item & p & Hin & Hc & Hi).
        exists item, p. split; [now right|]. now split.
    + intros (item & p & [<-|Hin] & Hc & Hi).
      * rewrite E1 in Hc. injection Hc as ->. simpl. now rewrite Hi.
      * apply orb_true_intro. right. apply IH. now exists item, p.
Qed.

(** C6, as amended: in mcp-tool.ts, the image scenario gives the header
    followed by the [inlineData] part, and a display containing
    "[Image: image/png]"; in general, when
    per-block processing emits something, the result is made of the parts'
    items in order, the items of a part being preceded by the header if and
    only if one of them is an [inlineData] part, that is, if and only if
    one of the part's blocks produces binary data: a sibling part with only
    text items gets no header. *)
Theorem header_iff_media :
  (forall name : string,
      let response :=
        [functionResponsePart name [("content", JArr [imageAAA])]] in
      McpTool.transformMcpResponse this response
      = Returns [textPart (JStr ("[Response from " +:+ serverToolName this
                                 +:+ " (" +:+ serverName this
                                 +:+ " MCP Server)]"));
                 inlineDataPart (JStr "AAA") (JStr "image/png")]
      /\ exists display,
           McpTool.getStringifiedResultForDisplay JSON_stringify response
           = Returns display
           /\ contains "[Image: image/png]" display)
  /\ (forall (parts : list JsVal) (itss : list (list JsVal)),
        Forall2 emits parts itss ->
        concat itss <> [] ->
        McpTool.transformMcpResponse this parts
        = Returns
            (concat
               (map (fun its =>
                       (if existsb isInlineData its
                        then [textPart
                                (JStr ("[Response from "
                                       +:+ serverToolName this +:+ " ("
                                       +:+ serverName this
                                       +:+ " MCP Server)]"))]
                        else []) ++ its) itss)))
  /\ (forall (items its : list JsVal),
        contentParts items = Returns its ->
        (existsb isInlineData its = true
         <-> exists item data mimeType,
               In item items
               /\ contentParts [item]
                  = Returns [inlineDataPart data mimeType])).
Proof.
  split; [|split].
  - intros name response. split; [reflexivity|].
    exists "[Image: image/png]". split; [reflexivity|]. apply contains_refl.
  - intros parts itss H Hne.
    rewrite (transformMcpResponse_plain this parts itss H).
    destruct (concat itss); [contradiction|reflexivity].
  - intros items its H. rewrite (inline_iff_block items its H). split.
    + intros (item & p & Hin & Hc & Hi).
      destruct (inline_part_shape item p Hc Hi) as (data & mimeType & ->).
      now exists item, data, mimeType.
    + intros (item & data & mimeType & Hin & Hc).
      exists item, (inlineDataPart data mimeType). auto.
Qed.

End Header.

Lemma header_iff_media_witness :
  McpTool.transformMcpResponse toolT [firstResponse; imageResponse]
  = Returns [textPart (JStr "First response");
             textPart (JStr "[Response from t (s MCP Server)]");
             inlineDataPart (JStr "AAA") (JStr "image/png")]
  /\ exists item data mimeType,
       In item [imageAAA]
       /\ contentParts [item] = Returns [inlineDataPart data mimeType].
Proof.
  destruct (header_iff_media toolT Json.stringify) as (_ & H & I).
  split.
  - apply (H [firstResponse; imageResponse]
             [[textPart (JStr "First response")];
              [inlineDataPart (JStr "AAA") (JStr "image/png")]]).
    + constructor; [|constructor; [|constructor]].
      * exists [textBlock "First response"]. split; [|reflexivity].
        split; [|reflexivity].
        eexists. split; [reflexivity|]. split; reflexivity.
      * exists [imageAAA]. split; [|reflexivity].
        split; [|reflexivity].
        eexists. split; [reflexivity|]. split; reflexivity.
    + discriminate.
  - apply (I [imageAAA] [inlineDataPart (JStr "AAA") (JStr "image/png")]
             eq_refl).
    reflexivity.
Defined.

(** The alternate revision has no response header: every image or audio
    block gets an informational line of its own, naming the tool after the
    response. *)
Lemma Part000_image_scenario :
  Part000.transformMcpContentToParts Json.parse [imageResponse]
  = Returns
      [textPart (JStr "[Tool 't' provided the following image data with mime-type: image/png]");
       JObj [("inlineData",
              JObj [("mimeType", JStr "image/png"); ("data", JStr "AAA")])]]
  /\ Part000.getStringifiedResultForDisplay Json.stringify [imageResponse]
     = Returns "[Image: image/png]".
Proof. split; reflexivity. Qed.

(** C6, as stated, fails in the alternate revision: the scenario's output
    does not hold the response header. *)
Lemma alternate_has_no_response_header :
  exists out,
    Part000.transformMcpContentToParts Json.parse [imageResponse]
    = Returns out
    /\ ~ In (textPart (JStr "[Response from t (s MCP Server)]")) out.
Proof.
  eexists. split; [reflexivity|].
  simpl. intros [H|[H|[]]]; discriminate.
Qed.


(** ** Resource blocks *)

Section Resources.
Variable JSON_parse : string -> outcome JsVal.
Variable toolName : JsVal.


End Resources.



(** In mcp-tool.ts a blob without a mime type is dropped: no default is
    applied, and the block is reported by its URI. *)
Lemma blob_without_mimeType :
  contentParts [blobOnly] = Returns [textPart (JStr "[Resource: u]")].
Proof. reflexivity. Qed.

(** ** Legacy blocks in the alternate revision *)

Section Legacy.
Import Part000.
Variable JSON_parse : string -> outcome JsVal.
Variable toolName : JsVal.

Lemma member_readable (v : JsVal) (k : string) :
  readable v -> member v k = Returns (field v k).
Proof. intros [H1 H2]. destruct v; simpl; congruence. Qed.

Lemma member_Returns (v x : JsVal) (k : string) :
  member v k = Returns x -> readable v /\ x = field v k.
Proof.
  destruct v; simpl; intros [= <-]; repeat split; discriminate.
Qed.

Lemma is_str_falsy (s : string) (v : JsVal) :
  s <> EmptyString -> truthy v = false -> is_str s v = false.
Proof.
  intros Hs Hv. destruct v as [| | | |t| |]; simpl in *; try reflexivity.
  apply negb_false_iff, String.eqb_eq in Hv. subst t.
  now apply String.eqb_neq.
Qed.

Lemma switchBlock_untyped (block : JsVal) :
  readable block -> truthy (field block "type") = false ->
  switchBlock toolName block = Returns JNull.
Proof.
  intros Hr Hty. unfold switchBlock. rewrite (member_readable _ _ Hr).
  cbn [bind].
  rewrite !(fun s H => is_str_falsy s _ H Hty) by discriminate.
  reflexivity.
Qed.

Lemma single_block (part block r : JsVal) :
  responsePart part [block] ->
  transformBlock JSON_parse (toolNameOf part) block = Returns r ->
  transformMcpContentToParts JSON_parse [part] = Returns (kept r).
Proof.
  intros Hpart Hr. unfold transformMcpContentToParts.
  rewrite (Part000_content part [block] [] Hpart).
  cbn [mapM first]. fold (toolNameOf part). rewrite Hr. cbn [bind].
  unfold kept. simpl. now rewrite app_nil_r.
Qed.

(** C8, as amended: in the alternate revision, a block without a type
    discriminator whose [text] is not empty is handed to [JSON.parse]; when
    parsing fails the raw text is emitted as a literal [{text}] part; when
    it succeeds the parsed value goes through the type switch, once: that
    is how a block received directly is processed unless the parsed value
    is itself an untyped text wrapper, which is not unwrapped again.  An
    untyped block whose [text] is empty is not parsed and yields nothing. *)
Theorem legacy_text_block (block text : JsVal) :
  isLegacyBlock block text ->
  (truthy text = true ->
   (forall e, JSON_parse (ToString text) = Throws e ->
      transformBlock JSON_parse toolName block = Returns (textPart text)
      /\ forall part,
           responsePart part [block] ->
           transformMcpContentToParts JSON_parse [part]
           = Returns [textPart text])
   /\ (forall parsed, JSON_parse (ToString text) = Returns parsed ->
       transformBlock JSON_parse toolName block
       = switchBlock toolName parsed
       /\ (truthy (field parsed "text")
            && negb (truthy (field parsed "type")) = false ->
           transformBlock JSON_parse toolName block
           = transformBlock JSON_parse toolName parsed)))
  /\ (truthy text = false ->
      transformBlock JSON_parse toolName block = Returns JNull).
Proof.
  intros [Hm Hty]. destruct (member_Returns _ _ _ Hm) as [Hr ->].
  split.
  - intros Htext. split.
    + intros e He.
      assert (G : forall name,
                 transformBlock JSON_parse name block
                 = Returns (textPart (field block "text"))).
      { intros name. unfold transformBlock. rewrite Hm. cbn [bind].
        now rewrite Htext, Hty, He. }
      split; [apply G|].
      intros part Hpart.
      now rewrite (single_block part block _ Hpart (G _)).
    + intros parsed Hp.
      assert (G : transformBlock JSON_parse toolName block
                  = switchBlock toolName parsed).
      { unfold transformBlock. rewrite Hm. cbn [bind].
        now rewrite Htext, Hty, Hp. }
      split; [exact G|].
      intros Hplain. rewrite G. unfold transformBlock at 1.
      destruct parsed; try reflexivity;
        cbn [member bind]; now rewrite Hplain.
  - intros Htext. unfold transformBlock. rewrite Hm. cbn [bind].
    rewrite Htext. cbn [andb]. now apply switchBlock_untyped.
Qed.

End Legacy.

Lemma legacy_text_block_witness :
  Part000.transformBlock Json.parse (JStr "t") helloWrapper
  = Returns (textPart (JStr "hello"))
  /\ Part000.transformMcpContentToParts Json.parse
       [functionResponsePart "t" [("content", JArr [helloWrapper])]]
     = Returns [textPart (JStr "hello")]
  /\ Part000.transformBlock Json.parse (JStr "t") wrappedTwice
     = Part000.switchBlock (JStr "t") helloWrapper
  /\ Part000.transformBlock Json.parse (JStr "t") emptyText = Returns JNull.
Proof.
  assert (L : isLegacyBlock helloWrapper (JStr "hello"))
    by (split; reflexivity).
  assert (L2 : isLegacyBlock wrappedTwice (field wrappedTwice "text"))
    by (split; reflexivity).
  assert (L0 : isLegacyBlock emptyText (JStr EmptyString))
    by (split; reflexivity).
  assert (P : Json.parse "hello" = Throws SyntaxError)
    by (vm_compute; reflexivity).
  assert (P2 : Json.parse (ToString (field wrappedTwice "text"))
               = Returns helloWrapper)
    by (vm_compute; reflexivity).
  destruct (legacy_text_block Json.parse (JStr "t") helloWrapper
              (JStr "hello") L) as [H _].
  destruct (H eq_refl) as [F _].
  destruct (F SyntaxError P) as [F1 F2].
  destruct (legacy_text_block Json.parse (JStr "t") wrappedTwice _ L2)
    as [H2 _].
  destruct (H2 eq_refl) as [_ S].
  destruct (S helloWrapper P2) as [S1 _].
  destruct (legacy_text_block Json.parse (JStr "t") emptyText _ L0)
    as [_ H0].
  split; [exact F1|]. split; [|split; [exact S1 | exact (H0 eq_refl)]].
  apply F2. eexists. split; [reflexivity|]. split; reflexivity.
Defined.

(** C8, as stated, fails on a wrapper around a wrapper: the parsed block,
    received directly, is emitted as a literal text, whereas the wrapped
    one yields nothing. *)
Lemma legacy_block_not_reprocessed :
  Json.parse (ToString (field wrappedTwice "text")) = Returns helloWrapper
  /\ Part000.transformBlock Json.parse (JStr "t") wrappedTwice
     <> Part000.transformBlock Json.parse (JStr "t") helloWrapper.
Proof. split; vm_compute; [reflexivity | discriminate]. Qed.

(** In mcp-tool.ts untyped text blocks are never parsed: they contribute
    nothing, and a response made of them alone is handed back as it is. *)
Lemma McpTool_legacy_block_ignored :
  contentParts [helloWrapper] = Returns []
  /\ McpTool.transformMcpResponse toolT
       [functionResponsePart "t" [("content", JArr [helloWrapper])]]
     = Returns [functionResponsePart "t" [("content", JArr [helloWrapper])]].
Proof. split; reflexivity. Qed.

(** ** Totality of the display functions *)

Section Totality.
Variable JSON_stringify : JsVal -> option string.

(** Called on its own, the alternate display function reads [type] off
    every element of the content array, and throws a [TypeError] on a
    [null] one. *)
Theorem display_throws_on_null_block :
  Part000.getStringifiedResultForDisplay JSON_stringify [nullBlock]
  = Throws TypeError.
Proof. reflexivity. Qed.

(** Without a content array, the raw response is rendered as fenced JSON. *)
Lemma Part000_display_fallback (rawResponse : list JsVal) :
  isArray
    (opt_member (opt_member (opt_member (Part000.first rawResponse)
                               "functionResponse") "response") "content")
  = false ->
  Part000.getStringifiedResultForDisplay JSON_stringify rawResponse
  = Returns ("```json" +:+ nl
             +:+ match JSON_stringify (JArr rawResponse) with
                 | Some json => json
                 | None => "undefined"
                 end
             +:+ nl +:+ "```").
Proof.
  intros H. unfold Part000.getStringifiedResultForDisplay.
  destruct (opt_member _ "content"); try reflexivity. discriminate.
Qed.





End Totality.

(** * Further properties of the code *)

(** ** generateValidName *)

Section ValidNames.

Lemma replaceInvalid_valid (s : string) : allValid s -> replaceInvalid s = s.
Proof.
  unfold allValid. induction s as [|c s IH]; simpl; [reflexivity|].
  intros H. inversion H as [|? ? Hc Hs]; subst.
  now rewrite Hc, (IH Hs).
Qed.

Lemma allValid_substring (s : string) (n m : nat) :
  allValid s -> allValid (substring n m s).
Proof.
  unfold allValid. rewrite list_ascii_substring. intros H.
  now apply Forall_take, Forall_drop.
Qed.

(** The result is as long as the name, cut to 63 characters. *)
Theorem generateValidName_length (name : string) :
  String.length (generateValidName name) = Nat.min (String.length name) 63.
Proof.
  unfold generateValidName, slice_first, slice_last.
  pose proof (length_replaceInvalid name) as L.
  destruct (63 <? String.length (replaceInvalid name))%nat eqn:E.
  - apply Nat.ltb_lt in E.
    rewrite !length_append, !length_substring by lia. simpl. lia.
  - apply Nat.ltb_ge in E. lia.
Qed.

(** A name that is already valid and short enough is kept as it is. *)
Theorem generateValidName_keeps_valid (name : string) :
  allValid name -> String.length name <= 63 ->
  generateValidName name = name.
Proof.
  intros Hv Hl. unfold generateValidName.
  rewrite (replaceInvalid_valid name Hv).
  destruct (63 <? String.length name)%nat eqn:E; [|reflexivity].
  apply Nat.ltb_lt in E. lia.
Qed.

Lemma generateValidName_keeps_valid_witness :
  generateValidName "myFunction" = "myFunction".
Proof.
  apply generateValidName_keeps_valid.
  - unfold allValid. simpl. repeat constructor.
  - simpl. lia.
Defined.

(** Sanitizing twice is sanitizing once. *)
Theorem generateValidName_idempotent (name : string) :
  generateValidName (generateValidName name) = generateValidName name.
Proof.
  assert (Hv : allValid (generateValidName name)).
  { unfold generateValidName, slice_first, slice_last.
    pose proof (allValid_replaceInvalid name) as Hv.
    destruct (63 <? String.length (replaceInvalid name))%nat; [|exact Hv].
    apply allValid_append. split; [now apply allValid_substring|].
    apply allValid_append. split; [|now apply allValid_substring].
    repeat constructor. }
  assert (Hl : String.length (generateValidName name) <= 63).
  { unfold generateValidName, slice_first, slice_last.
    destruct (63 <? String.length (replaceInvalid name))%nat eqn:E.
    - apply Nat.ltb_lt in E.
      rewrite !length_append, !length_substring by lia. simpl. lia.
    - now apply Nat.ltb_ge in E. }
  generalize dependent (generateValidName name). intros r Hv Hl.
  unfold generateValidName. rewrite (replaceInvalid_valid r Hv).
  destruct (63 <? String.length r)%nat eqn:E; [|reflexivity].
  apply Nat.ltb_lt in E. lia.
Qed.

End ValidNames.

(** ** Fully qualified tools and the allow-list *)

Section Qualified.

(** The qualified copy of a tool has the tool's server name, tool name,
    timeout and trust; its registry name is [<server>__<tool>] as it
    stands, not passed through [generateValidName]; the gate takes the same
    decision for the tool and for its qualified copy, a confirmation of
    either adds the same keys, and qualifying twice changes nothing
    more. *)
Theorem asFullyQualifiedTool_gate (this : DiscoveredMCPTool) :
  (serverName (asFullyQualifiedTool this) = serverName this
   /\ serverToolName (asFullyQualifiedTool this) = serverToolName this
   /\ timeout (asFullyQualifiedTool this) = timeout this
   /\ trust (asFullyQualifiedTool this) = trust this)
  /\ name (asFullyQualifiedTool this)
     = serverName this +:+ "__" +:+ serverToolName this
  /\ asFullyQualifiedTool (asFullyQualifiedTool this)
     = asFullyQualifiedTool this
  /\ forall allowlist : gset string,
       (shouldConfirmExecute (asFullyQualifiedTool this) allowlist = None
        <-> shouldConfirmExecute this allowlist = None)
       /\ forall d d' outcome (al : gset string),
            shouldConfirmExecute this allowlist = Some d ->
            shouldConfirmExecute (asFullyQualifiedTool this) allowlist
            = Some d' ->
            onConfirm d' outcome al = onConfirm d outcome al.
Proof.
  split; [repeat split|]. split; [reflexivity|]. split; [reflexivity|].
  intros allowlist. unfold shouldConfirmExecute; simpl.
  destruct (match trust this with Some b => b | None => false end).
  { split; [tauto | discriminate]. }
  destruct (bool_decide _ || bool_decide _).
  { split; [tauto | discriminate]. }
  split; [split; discriminate|].
  intros d d' outcome al [= <-] [= <-]. reflexivity.
Qed.

End Qualified.

Lemma asFullyQualifiedTool_gate_witness :
  (shouldConfirmExecute (asFullyQualifiedTool trustedT) ∅ = None
   <-> shouldConfirmExecute trustedT ∅ = None)
  /\ forall d',
       shouldConfirmExecute (asFullyQualifiedTool toolT) ∅ = Some d' ->
       onConfirm d' ProceedAlwaysTool ∅ = onConfirm pendingT ProceedAlwaysTool ∅.
Proof.
  destruct (asFullyQualifiedTool_gate trustedT) as (_ & _ & _ & G).
  destruct (asFullyQualifiedTool_gate toolT) as (_ & _ & _ & G').
  split; [apply (G ∅)|].
  intros d' H. destruct (G' ∅) as [_ K].
  apply (K pendingT d' ProceedAlwaysTool ∅); [|exact H].
  vm_compute. reflexivity.
Defined.

Section AllowList.

Lemma elem_of_resolveAll
    (rs : list (ToolMcpConfirmationDetails * ToolConfirmationOutcome)) :
  forall (allowlist : gset string) (key : string),
    key ∈ resolveAll allowlist rs
    <-> key ∈ allowlist
        \/ exists d,
             (In (d, ProceedAlwaysServer) rs /\ key = serverAllowListKey d)
             \/ (In (d, ProceedAlwaysTool) rs /\ key = toolAllowListKey d).
Proof.
  unfold resolveAll.
  induction rs as [|[d o] rs IH]; intros allowlist key; simpl.
  - split; [auto|]. intros [H|(d & [[[] _]|[[] _]])]. exact H.
  - rewrite IH. split.
    + intros [H|(d' & H)].
      * destruct o; simpl in H; try (left; exact H).
        -- apply elem_of_union in H as [H|H]; [now left|].
           apply elem_of_singleton in H. right. exists d. left. auto.
        -- apply elem_of_union in H as [H|H]; [now left|].
           apply elem_of_singleton in H. right. exists d. right. auto.
      * right. exists d'. destruct H as [[H ?]|[H ?]]; [left|right]; auto.
    + intros [H|(d' & [[[E|H] ->]|[[E|H] ->]])].
      * left. now apply onConfirm_grows.
      * injection E as Ed Eo. subst. left. simpl.
        apply elem_of_union. right. now apply elem_of_singleton.
      * right. exists d'. left. auto.
      * injection E as Ed Eo. subst. left. simpl.
        apply elem_of_union. right. now apply elem_of_singleton.
      * right. exists d'. right. auto.
Qed.

(** The allow-list reached by a series of resolutions depends only on which
    resolutions occur in it: neither their order nor their repetition
    matters. *)
Theorem resolveAll_order_irrelevant (allowlist : gset string)
    (rs rs' : list (ToolMcpConfirmationDetails * ToolConfirmationOutcome)) :
  (forall r, In r rs <-> In r rs') ->
  resolveAll allowlist rs = resolveAll allowlist rs'.
Proof.
  intros H. apply set_eq. intros key. rewrite !elem_of_resolveAll.
  split; (intros [K|(d & [[K ->]|[K ->]])]; [now left|..];
          apply H in K; right; exists d; [left|right]; auto).
Qed.

Lemma resolveAll_order_irrelevant_witness :
  resolveAll ∅ [(pendingT, ProceedAlwaysServer); (pendingT, ProceedAlwaysTool)]
  = resolveAll ∅ [(pendingT, ProceedAlwaysTool); (pendingT, ProceedAlwaysServer);
                  (pendingT, ProceedAlwaysTool)].
Proof.
  apply resolveAll_order_irrelevant. intros r. simpl. tauto.
Defined.

Lemma pending_keys (this : DiscoveredMCPTool) (allowlist : gset string) :
  shouldConfirmExecute this allowlist <> None ->
  (serverName this ∉ allowlist)
  /\ ((serverName this +:+ "." +:+ serverToolName this) ∉ allowlist).
Proof.
  unfold shouldConfirmExecute.
  destruct (match trust this with Some b => b | None => false end);
    [congruence|].
  destruct (bool_decide (serverName this ∈ allowlist)) eqn:E1;
    [simpl; congruence|].
  destruct (bool_decide
              ((serverName this +:+ "." +:+ serverToolName this) ∈ allowlist))
    eqn:E2; [simpl; congruence|].
  intros _. split.
  - intros H. now rewrite (bool_decide_eq_true_2 _ H) in E1.
  - intros H. now rewrite (bool_decide_eq_true_2 _ H) in E2.
Qed.

Lemma still_pending (this : DiscoveredMCPTool) (before after : gset string) :
  shouldConfirmExecute this before <> None ->
  serverName this ∉ after ->
  (serverName this +:+ "." +:+ serverToolName this) ∉ after ->
  shouldConfirmExecute this after <> None.
Proof.
  unfold shouldConfirmExecute.
  destruct (match trust this with Some b => b | None => false end);
    [congruence|].
  intros _ H1 H2.
  rewrite (bool_decide_eq_false_2 _ H1), (bool_decide_eq_false_2 _ H2).
  discriminate.
Qed.

Lemma append_not_prefix (s t : string) : s <> s +:+ "." +:+ t.
Proof.
  intros H. apply (f_equal String.length) in H.
  rewrite !length_append in H. simpl in H. lia.
Qed.

(** Tool-scope approval stays within the server's tools: approving one tool
    with ProceedAlwaysTool leaves another tool of the same server, with a
    different name, waiting for confirmation. *)
Theorem tool_scope_isolated (this other : DiscoveredMCPTool)
    (seen allowlist : gset string) (details : ToolMcpConfirmationDetails) :
  shouldConfirmExecute this seen = Some details ->
  serverName other = serverName this ->
  serverToolName other <> serverToolName this ->
  shouldConfirmExecute other allowlist <> None ->
  shouldConfirmExecute other (onConfirm details ProceedAlwaysTool allowlist)
  <> None.
Proof.
  intros Hd Hs Ht Hp.
  apply shouldConfirmExecute_keys in Hd as [_ Hk].
  destruct (pending_keys other allowlist Hp) as [H1 H2].
  apply (still_pending other allowlist); [exact Hp|..]; simpl; rewrite Hk.
  - intros H. apply elem_of_union in H as [H|H]; [now apply H1|].
    apply elem_of_singleton in H. rewrite Hs in H.
    now apply append_not_prefix in H.
  - intros H. apply elem_of_union in H as [H|H]; [now apply H2|].
    apply elem_of_singleton in H. rewrite Hs in H.
    apply String.app_inj in H. injection H as H. now apply Ht.
Qed.

Lemma tool_scope_isolated_witness :
  shouldConfirmExecute otherT (onConfirm pendingT ProceedAlwaysTool ∅) <> None.
Proof.
  apply (tool_scope_isolated toolT otherT ∅ ∅ pendingT).
  - vm_compute. reflexivity.
  - reflexivity.
  - discriminate.
  - vm_compute. discriminate.
Defined.

(** The two kinds of key share one set of strings: approving the tool [t]
    of server [s] with ProceedAlwaysTool adds the string [s.t], which is
    also the server-scope key of a server named [s.t], so every tool of
    such a server is allowed from then on. *)
Theorem tool_key_is_server_key (this other : DiscoveredMCPTool)
    (seen allowlist : gset string) (details : ToolMcpConfirmationDetails) :
  shouldConfirmExecute this seen = Some details ->
  serverName other = serverName this +:+ "." +:+ serverToolName this ->
  shouldConfirmExecute other (onConfirm details ProceedAlwaysTool allowlist)
  = None.
Proof.
  intros Hd Hs. apply shouldConfirmExecute_keys in Hd as [_ Hk].
  apply shouldConfirmExecute_listed_server. simpl. rewrite Hk, Hs.
  set_solver.
Qed.

Lemma tool_key_is_server_key_witness :
  shouldConfirmExecute toolOfST ∅ <> None
  /\ shouldConfirmExecute toolOfST (onConfirm pendingT ProceedAlwaysTool ∅)
     = None.
Proof.
  split; [vm_compute; discriminate|].
  apply (tool_key_is_server_key toolT toolOfST ∅ ∅ pendingT).
  - vm_compute. reflexivity.
  - reflexivity.
Defined.

End AllowList.

(** ** Per-block processing in mcp-tool.ts *)

Section Blocks.
Import McpTool.
Variable this : DiscoveredMCPTool.

Lemma untyped_skip (item : JsVal) :
  has "type" item = false ->
  forall st, transformItem st item = Returns st.
Proof.
  intros H st. unfold transformItem.
  assert (Htext : isTextContent item = false).
  { unfold isTextContent. rewrite H. now rewrite !andb_false_r. }
  assert (Hmedia : isMediaContent item = false).
  { unfold isMediaContent. rewrite H.
    destruct (negb (String.eqb (typeof item) "object") || is_null item);
      reflexivity. }
  assert (Hres : isResourceContent item = Returns false).
  { unfold isResourceContent. rewrite H. now rewrite !andb_false_r. }
  rewrite Htext, Hmedia, Hres. cbn [bind]. rewrite H.
  now rewrite andb_false_r.
Qed.

(** Processing a content array block by block is processing its two halves
    one after the other: the emitted items follow the order of the blocks. *)
Theorem contentParts_app (xs ys : list JsVal) :
  contentParts (xs ++ ys)
  = (ps <- contentParts xs ;; qs <- contentParts ys ;; Returns (ps ++ qs)).
Proof.
  induction xs as [|x xs IH].
  - change (contentParts []) with (@Returns (list JsVal) []). cbn [bind app].
    destruct (contentParts ys); reflexivity.
  - cbn [app]. rewrite (contentParts_cons x (xs ++ ys)), IH.
    rewrite (contentParts_cons x xs).
    destruct (contentParts [x]) as [p|e]; cbn [bind]; [|reflexivity].
    destruct (contentParts xs) as [ps|e]; cbn [bind]; [|reflexivity].
    destruct (contentParts ys) as [qs|e]; cbn [bind]; [|reflexivity].
    now rewrite app_assoc.
Qed.

Lemma canonical_text (t : string) : Forall canonicalPart [textPart (JStr t)].
Proof. constructor; [|constructor]. left. eexists; reflexivity. Qed.

Lemma canonical_inline (d m : JsVal) :
  Forall canonicalPart [inlineDataPart d m].
Proof. constructor; [|constructor]. right. eexists _, _; reflexivity. Qed.

Lemma contentParts_single_shape (item : JsVal) (ps : list JsVal) :
  contentParts [item] = Returns ps ->
  length ps <= 1 /\ Forall canonicalPart ps.
Proof.
  unfold contentParts. cbn [foldM]. unfold transformItem.
  destruct (isTextContent item) eqn:Ht.
  { destruct (isTextContent_inv item Ht) as (fs & _ & _ & ->).
    intros [= <-]. split; [simpl; lia | apply canonical_text]. }
  destruct (isMediaContent item).
  { split_ifs; intros [= <-]; (split; [simpl; lia|]);
      (apply canonical_text || apply canonical_inline). }
  destruct (isResourceContent item) as [[|]|err]; cbn [bind];
    [| |discriminate].
  - split_ifs; intros [= <-]; (split; [simpl; lia|]);
      (apply canonical_text || apply canonical_inline).
  - split_ifs; intros [= <-]; (split; [simpl; lia|]);
      (apply canonical_text || constructor).
Qed.

(** Per-block processing builds nothing but [{text: <string>}] and
    [{inlineData}] parts, at most one per block: raw blocks are never
    forwarded. *)
Theorem contentParts_canonical (items its : list JsVal) :
  contentParts items = Returns its ->
  length its <= length items /\ Forall canonicalPart its.
Proof.
  revert its. induction items as [|x items IH]; intros its H.
  - injection H as <-. split; [reflexivity | constructor].
  - rewrite contentParts_cons in H.
    destruct (contentParts [x]) as [ps|e] eqn:E1; [|discriminate].
    destruct (contentParts items) as [qs|e] eqn:E2; [|discriminate].
    cbn [bind] in H. injection H as <-.
    destruct (contentParts_single_shape x ps E1) as [L1 F1].
    destruct (IH qs eq_refl) as [L2 F2].
    rewrite length_app. split; [simpl; lia | now apply Forall_app].
Qed.

Lemma contentParts_canonical_witness :
  length [textPart (JStr "First response")] <= 1
  /\ Forall canonicalPart [textPart (JStr "First response")].
Proof.
  apply (contentParts_canonical [textBlock "First response"]). reflexivity.
Defined.

(** A media block whose [data] and [mimeType] are strings becomes an
    [inlineData] part exactly when neither is empty; an empty string is as
    invalid as a missing field. *)
Theorem media_block_strings (item : JsVal) (data mimeType : string) :
  isMediaBlock item ->
  field item "data" = JStr data ->
  field item "mimeType" = JStr mimeType ->
  contentParts [item]
  = Returns [if negb (String.eqb data EmptyString)
                && negb (String.eqb mimeType EmptyString)
             then inlineDataPart (JStr data) (JStr mimeType)
             else textPart (JStr "[Invalid media: missing data or mimeType]")].
Proof.
  intros (fields & type & -> & Hty & Hin) Hd Hm.
  unfold contentParts. cbn [foldM]. unfold transformItem.
  assert (Htext : isTextContent (JObj fields) = false).
  { unfold isTextContent. rewrite Hty.
    destruct Hin as [<-|[<-|[<-|[<-|[]]]]]; simpl;
      now rewrite !andb_false_r. }
  assert (Hmedia : isMediaContent (JObj fields) = true).
  { unfold isMediaContent.
    change (typeof (JObj fields)) with "object".
    change (is_null (JObj fields)) with false.
    rewrite (field_has fields "type") by (rewrite Hty; discriminate).
    rewrite (field_has fields "data") by (rewrite Hd; discriminate).
    rewrite (field_has fields "mimeType") by (rewrite Hm; discriminate).
    rewrite Hty, Hd, Hm.
    destruct Hin as [<-|[<-|[<-|[<-|[]]]]]; reflexivity. }
  rewrite Htext, Hmedia, Hd, Hm. simpl.
  destruct (String.eqb data EmptyString), (String.eqb mimeType EmptyString);
    reflexivity.
Qed.

Lemma media_block_strings_witness :
  contentParts [imageAAA]
  = Returns [inlineDataPart (JStr "AAA") (JStr "image/png")]
  /\ contentParts [mediaBlock "audio" (JStr EmptyString) (JStr "audio/mp3")]
     = Returns [textPart (JStr "[Invalid media: missing data or mimeType]")].
Proof.
  split.
  - apply (media_block_strings imageAAA "AAA" "image/png");
      [|reflexivity..].
    eexists _, "image". split; [reflexivity|]. split; [reflexivity|].
    left. reflexivity.
  - apply (media_block_strings _ EmptyString "audio/mp3"); [|reflexivity..].
    eexists _, "audio". split; [reflexivity|]. split; [reflexivity|].
    right. right. left. reflexivity.
Defined.

(** A block whose [type] is a string the transformer does not know (not
    text, not a media type, not resource) is reported, not dropped: it
    yields [{text: "[Unknown content type: <type>]"}].  A resource link is
    such a block here. *)
Theorem unknown_type_block (fields : list (string * JsVal)) (type : string) :
  field (JObj fields) "type" = JStr type ->
  ~ In type ("text" :: "resource" :: MCP_MEDIA_TYPES) ->
  contentParts [JObj fields]
  = Returns [textPart (JStr ("[Unknown content type: " +:+ type +:+ "]"))].
Proof.
  intros Hty Hnot.
  assert (N : forall s, In s ("text" :: "resource" :: MCP_MEDIA_TYPES) ->
                        String.eqb type s = false).
  { intros s Hs. apply String.eqb_neq. intros ->. now apply Hnot. }
  unfold contentParts. cbn [foldM]. unfold transformItem.
  assert (Htext : isTextContent (JObj fields) = false).
  { unfold isTextContent. rewrite Hty. cbn [is_str].
    rewrite (N "text") by (simpl; tauto). now rewrite !andb_false_r. }
  assert (Hincl : includes MCP_MEDIA_TYPES (JStr type) = false).
  { cbn [includes MCP_MEDIA_TYPES existsb].
    rewrite (N "image"), (N "pdf"), (N "audio"), (N "video")
      by (simpl; tauto). reflexivity. }
  assert (Hmedia : isMediaContent (JObj fields) = false).
  { unfold isMediaContent. rewrite Hty, Hincl.
    change (typeof (JObj fields)) with "object".
    change (is_null (JObj fields)) with false.
    destruct (negb (has "type" (JObj fields))
              || negb (has "data" (JObj fields))
              || negb (has "mimeType" (JObj fields))); reflexivity. }
  assert (Hres : isResourceContent (JObj fields) = Returns false).
  { unfold isResourceContent. rewrite Hty. cbn [is_str].
    rewrite (N "resource") by (simpl; tauto). now rewrite !andb_false_r. }
  rewrite Htext, Hmedia, Hres. cbn [bind].
  change (truthy (JObj fields)) with true.
  change (typeof (JObj fields)) with "object".
  rewrite (field_has fields "type") by (rewrite Hty; discriminate).
  rewrite Hty, Hincl. reflexivity.
Qed.

Lemma unknown_type_block_witness :
  contentParts [customBlock]
  = Returns [textPart (JStr "[Unknown content type: custom]")]
  /\ contentParts [JObj [("type", JStr "resource_link"); ("uri", JStr "u")]]
     = Returns [textPart (JStr "[Unknown content type: resource_link]")].
Proof.
  split.
  - apply (unknown_type_block _ "custom"); [reflexivity|].
    simpl. intros [H|[H|[H|[H|[H|[H|[]]]]]]]; discriminate.
  - apply (unknown_type_block _ "resource_link"); [reflexivity|].
    simpl. intros [H|[H|[H|[H|[H|[H|[]]]]]]]; discriminate.
Defined.

(** Blocks without a [type] key (old-style [{text}] blocks, primitives,
    [null]) are invisible to the transformer: removing them from the
    content array changes nothing to what is emitted. *)
Theorem untyped_blocks_invisible (items : list JsVal) :
  contentParts items = contentParts (List.filter (has "type") items).
Proof.
  induction items as [|x items IH]; [reflexivity|].
  cbn [List.filter]. destruct (has "type" x) eqn:H.
  - now rewrite (contentParts_cons x items),
      (contentParts_cons x (List.filter (has "type") items)), IH.
  - rewrite (contentParts_cons x items), <- IH. unfold contentParts at 1.
    cbn [foldM]. rewrite (untyped_skip x H). cbn [bind app].
    destruct (contentParts items); reflexivity.
Qed.

End Blocks.

(** ** Whole responses in mcp-tool.ts *)

Section Responses.
Import McpTool.
Variable this : DiscoveredMCPTool.
Variable JSON_stringify : JsVal -> option string.

Lemma contentParts_legacy (items : list JsVal) :
  Forall legacyText items -> contentParts items = Returns [].
Proof.
  induction 1 as [|item items [Hi _] _ IH]; [reflexivity|].
  rewrite contentParts_cons, IH. unfold contentParts. cbn [foldM].
  now rewrite (untyped_skip item Hi).
Qed.

Lemma processItem_legacy (item : JsVal) :
  legacyText item -> processItem item = JStr (textOf item).
Proof.
  intros [Hty [s Hs]]. unfold processItem, textOf.
  destruct item as [| | | | | |fields]; try discriminate.
  change (truthy (JObj fields)) with true.
  change (typeof (JObj fields)) with "object".
  assert (U : field (JObj fields) "type" = JUndefined).
  { simpl in *. destruct (assoc "type" fields); [discriminate|reflexivity]. }
  rewrite U, Hs. reflexivity.
Qed.

(** Backward compatibility: a response made of old-style text blocks (no
    [type] key) goes through [execute] with its parts untouched, and is
    displayed as the texts joined with newline. *)
Theorem legacy_response_execute (part : JsVal) (items : list JsVal) :
  plainPart part items ->
  Forall legacyText items ->
  execute JSON_stringify this [part]
  = Returns ([part], String.concat nl (map textOf items)).
Proof.
  intros Hp Hl. unfold execute.
  assert (F : Forall2 emits [part] [[]]).
  { constructor; [|constructor]. exists items. split; [exact Hp|].
    now apply contentParts_legacy. }
  rewrite (transformMcpResponse_plain this _ _ F). cbn [bind].
  destruct Hp as [Hr _].
  rewrite (McpTool_display_content JSON_stringify part items Hr). cbv zeta.
  assert (P : map processItem items = map JStr (map textOf items)).
  { clear Hr F. induction Hl as [|item items Hi _ IH]; simpl;
      [reflexivity|]. now rewrite (processItem_legacy item Hi), IH. }
  rewrite P, forallb_isString_strings, Array_join_strings. reflexivity.
Qed.

Lemma transformItem_TypeError (st : state) (item : JsVal) (e : JsError) :
  transformItem st item = Throws e -> e = TypeError.
Proof.
  unfold transformItem.
  destruct (isTextContent item); [discriminate|].
  destruct (isMediaContent item); [split_ifs; discriminate|].
  unfold isResourceContent.
  destruct (_ && _ && _ && _ && _ && _).
  - destruct (field item "resource"); cbn [member bind];
      try (intros [= <-]; reflexivity);
      split_ifs; discriminate.
  - cbn [bind]. split_ifs; discriminate.
Qed.

Lemma foldM_transformItem_throws (item : JsVal)
    (items : list JsVal) :
  (forall st, transformItem st item = Throws TypeError) ->
  In item items ->
  forall st, foldM transformItem st items = Throws TypeError.
Proof.
  intros Hthrow. induction items as [|x items IH]; intros Hin st; [easy|].
  cbn [foldM].
  destruct (transformItem st x) as [st'|e] eqn:E; cbn [bind].
  - destruct Hin as [->|Hin]; [now rewrite Hthrow in E|]. now apply IH.
  - now rewrite (transformItem_TypeError st x e E).
Qed.

(** [typeof null] is ['object']: a resource block whose [resource] is
    [null] passes the guard's type test, the guard then reads [uri] off
    [null], and the whole transformation throws a [TypeError], wherever the
    block stands in the content array. *)
Theorem null_resource_throws (part item : JsVal) (items : list JsVal) :
  nullResource item ->
  In item items ->
  plainPart part items ->
  transformMcpResponse this [part] = Throws TypeError.
Proof.
  intros (fields & -> & Hty & Hres) Hin ((fr & Hm & Ht & Hc) & He).
  unfold errorFlag in He. rewrite (member_opt_member _ _ _ Hm) in He.
  assert (Hthrow : forall st, transformItem st (JObj fields)
                              = Throws TypeError).
  { intros st. unfold transformItem.
    assert (Htext : isTextContent (JObj fields) = false).
    { unfold isTextContent. rewrite Hty. simpl. now rewrite !andb_false_r. }
    assert (Hmedia : isMediaContent (JObj fields) = false).
    { unfold isMediaContent. rewrite Hty.
      change (typeof (JObj fields)) with "object".
      change (is_null (JObj fields)) with false.
      destruct (negb (has "type" (JObj fields))
                || negb (has "data" (JObj fields))
                || negb (has "mimeType" (JObj fields))); reflexivity. }
    rewrite Htext, Hmedia. unfold isResourceContent.
    change (typeof (JObj fields)) with "object".
    rewrite (field_has fields "type") by (rewrite Hty; discriminate).
    rewrite (field_has fields "resource") by (rewrite Hres; discriminate).
    rewrite Hty, Hres. reflexivity. }
  unfold transformMcpResponse. cbn [foldM]. unfold transformPart.
  rewrite Hm. cbn [bind]. rewrite Ht. cbn [negb]. rewrite Hc, He.
  now rewrite (foldM_transformItem_throws _ _ Hthrow Hin).
Qed.





End Responses.

Lemma plainPart_legacyResponse : plainPart legacyResponse [helloWrapper].
Proof.
  split; [|reflexivity].
  eexists. split; [reflexivity|]. split; reflexivity.
Qed.

Lemma legacy_response_execute_witness :
  McpTool.execute Json.stringify toolT [legacyResponse]
  = Returns ([legacyResponse], "hello").
Proof.
  apply (legacy_response_execute toolT Json.stringify legacyResponse
           [helloWrapper] plainPart_legacyResponse).
  constructor; [|constructor]. split; [reflexivity|].
  exists "hello". reflexivity.
Defined.

Lemma null_resource_throws_witness :
  McpTool.transformMcpResponse toolT
    [functionResponsePart "t"
       [("content", JArr [textBlock "before"; nullResourceBlock])]]
  = Throws TypeError.
Proof.
  apply (null_resource_throws toolT _ nullResourceBlock
           [textBlock "before"; nullResourceBlock]).
  - eexists. split; [reflexivity|]. split; reflexivity.
  - right. left. reflexivity.
  - split; [|reflexivity].
    eexists. split; [reflexivity|]. split; reflexivity.
Defined.


(** The parts of a mixed response: a part that is not a function response
    is forwarded as it is, an error-flagged part becomes its error line, a
    plain part becomes its items. *)
Lemma transformMcpResponse_contributions_witness :
  McpTool.transformMcpResponse toolT noteAndError
  = Returns [JObj [("text", JStr "note")];
             textPart (JStr "Error from t: not found");
             textPart (JStr "[Response from t (s MCP Server)]");
             inlineDataPart (JStr "AAA") (JStr "image/png")].
Proof.
  assert (F : Forall2
                (fun part c => contribution toolT part (fst c) (snd c))
                noteAndError
                [([JObj [("text", JStr "note")]], false);
                 ([textPart (JStr "Error from t: not found")], true);
                 (withHeader toolT
                    [inlineDataPart (JStr "AAA") (JStr "image/png")],
                  true)]).
  { constructor; [|constructor; [|constructor; [|constructor]]].
    - apply (contributes_itself toolT _ JUndefined); [reflexivity|].
      left. reflexivity.
    - apply (contributes_error toolT notFound [textBlock "not found"]).
      split; [|reflexivity].
      eexists. split; [reflexivity|]. split; reflexivity.
    - apply (contributes_items toolT imageResponse
               [inlineDataPart (JStr "AAA") (JStr "image/png")]).
      exists [imageAAA]. split; [|reflexivity]. split; [|reflexivity].
      eexists. split; [reflexivity|]. split; reflexivity. }
  rewrite (transformMcpResponse_contributions toolT _ _ F). reflexivity.
Defined.

(** ** The display function of mcp-tool.ts *)

Section DisplayMore.
Import McpTool.
Variable JSON_stringify : JsVal -> option string.





End DisplayMore.




(** ** The alternate revision: what it reads and when it throws *)

Section AlternateRevision.
Import Part000.
Variable JSON_parse : string -> outcome JsVal.
Variable JSON_stringify : JsVal -> option string.

(** Only the first part of the response is ever looked at: the transformer
    gives the same parts whatever follows it, and so does the display
    function once the first part carries a content array. *)
Theorem first_part_only (part : JsVal) (rest : list JsVal) :
  transformMcpContentToParts JSON_parse (part :: rest)
  = transformMcpContentToParts JSON_parse [part]
  /\ (forall items,
        responsePart part items ->
        getStringifiedResultForDisplay JSON_stringify (part :: rest)
        = getStringifiedResultForDisplay JSON_stringify [part]).
Proof.
  split; [reflexivity|].
  intros items H. unfold getStringifiedResultForDisplay.
  now rewrite (Part000_content part items rest H),
    (Part000_content part items [] H).
Qed.

(** A response whose first part has no content array (no part at all, no
    function response, a content that is not an array) is answered with
    the single part [{text: '[Error: Could not parse tool response]'}]. *)
Theorem unparseable_response (sdkResponse : list JsVal) :
  isArray
    (opt_member (opt_member (opt_member (first sdkResponse)
                               "functionResponse") "response") "content")
  = false ->
  transformMcpContentToParts JSON_parse sdkResponse
  = Returns [textPart (JStr "[Error: Could not parse tool response]")].
Proof.
  intros H. unfold transformMcpContentToParts.
  destruct (opt_member _ "content"); try reflexivity. discriminate.
Qed.

Lemma switchBlock_TypeError (toolName block : JsVal) (e : JsError) :
  switchBlock toolName block = Throws e -> e = TypeError.
Proof.
  unfold switchBlock.
  destruct block; cbn [member bind]; try (intros [= <-]; reflexivity);
    split_ifs; discriminate.
Qed.

Lemma transformBlock_TypeError (toolName block : JsVal) (e : JsError) :
  transformBlock JSON_parse toolName block = Throws e -> e = TypeError.
Proof.
  unfold transformBlock.
  destruct block; cbn [member bind]; try (intros [= <-]; reflexivity);
    (destruct (_ && _);
     [destruct (JSON_parse _); [apply switchBlock_TypeError|discriminate]
     |apply switchBlock_TypeError]).
Qed.

Lemma displayBlock_TypeError (block : JsVal) (e : JsError) :
  displayBlock block = Throws e -> e = TypeError.
Proof.
  unfold displayBlock.
  destruct block; cbn [member bind]; try (intros [= <-]; reflexivity);
    split_ifs; discriminate.
Qed.

Lemma mapM_throws {A B} (f : A -> outcome B) (l : list A) (x : A) :
  (forall y e, f y = Throws e -> e = TypeError) ->
  In x l -> f x = Throws TypeError ->
  mapM f l = Throws TypeError.
Proof.
  intros Hf Hin Hx. induction l as [|y l IH]; [easy|]. cbn [mapM].
  destruct (f y) as [b|e] eqn:E; cbn [bind].
  - destruct Hin as [->|Hin]; [congruence|]. now rewrite (IH Hin).
  - now rewrite (Hf y e E).
Qed.

(** A [null] or [undefined] element anywhere in the content array makes
    both the transformer and the display function throw a [TypeError]. *)
Theorem nullish_block_throws (part block : JsVal) (blocks : list JsVal) :
  responsePart part blocks ->
  In block blocks ->
  nullish block ->
  transformMcpContentToParts JSON_parse [part] = Throws TypeError
  /\ getStringifiedResultForDisplay JSON_stringify [part] = Throws TypeError.
Proof.
  intros Hr Hin Hn. split.
  - unfold transformMcpContentToParts.
    rewrite (Part000_content part blocks [] Hr).
    rewrite (mapM_throws _ blocks block); [reflexivity| |exact Hin|].
    + intros y e. apply transformBlock_TypeError.
    + destruct Hn as [-> | ->]; reflexivity.
  - unfold getStringifiedResultForDisplay.
    rewrite (Part000_content part blocks [] Hr).
    rewrite (mapM_throws _ blocks block); [reflexivity| |exact Hin|].
    + apply displayBlock_TypeError.
    + destruct Hn as [-> | ->]; reflexivity.
Qed.

(** An untyped block whose text is valid JSON for [null] makes the
    transformer throw as well: the parsed value replaces the block, and
    its [type] is read without a check. *)
Theorem json_null_throws (part block text : JsVal) (blocks : list JsVal) :
  isLegacyBlock block text ->
  truthy text = true ->
  JSON_parse (ToString text) = Returns JNull ->
  responsePart part blocks ->
  In block blocks ->
  transformMcpContentToParts JSON_parse [part] = Throws TypeError.
Proof.
  intros [Hm Hty] Ht Hp Hr Hin.
  unfold transformMcpContentToParts.
  rewrite (Part000_content part blocks [] Hr).
  rewrite (mapM_throws _ blocks block); [reflexivity| |exact Hin|].
  - intros y e. apply transformBlock_TypeError.
  - unfold transformBlock. rewrite Hm. cbn [bind].
    now rewrite Ht, Hty, Hp.
Qed.



(** A typed block that the switch does not handle (video and pdf among
    them) is dropped by the transformer, while the display function
    reports it as an unknown content type. *)
Theorem unhandled_type_dropped (toolName block : JsVal) (type : string) :
  readable block ->
  field block "type" = JStr type ->
  type <> EmptyString ->
  ~ In type switchTypes ->
  transformBlock JSON_parse toolName block = Returns JNull
  /\ kept JNull = []
  /\ displayBlock block
     = Returns (JStr ("[Unknown content type: " +:+ type +:+ "]")).
Proof.
  clear JSON_stringify. intros Hr Hty Hne Hnot.
  assert (N : forall s, In s switchTypes -> is_str s (JStr type) = false).
  { intros s Hs. cbn [is_str]. apply String.eqb_neq. intros ->.
    now apply Hnot. }
  assert (T : truthy (JStr type) = true).
  { cbn [truthy]. apply negb_true_iff. now apply String.eqb_neq. }
  split; [|split; [reflexivity|]].
  - unfold transformBlock, switchBlock.
    rewrite !(member_readable _ _ Hr). cbn [bind].
    rewrite Hty, T, andb_false_r.
    rewrite (N "text"), (N "image"), (N "audio"), (N "resource"),
      (N "resource_link") by (simpl; tauto).
    reflexivity.
  - unfold displayBlock. rewrite (member_readable _ _ Hr). cbn [bind].
    rewrite Hty.
    rewrite (N "text"), (N "image"), (N "audio"), (N "resource"),
      (N "resource_link") by (simpl; tauto).
    reflexivity.
Qed.

End AlternateRevision.

Lemma first_part_only_witness :
  Part000.getStringifiedResultForDisplay Json.stringify
    [firstResponse; imageResponse]
  = Part000.getStringifiedResultForDisplay Json.stringify [firstResponse].
Proof.
  destruct (first_part_only Json.parse Json.stringify firstResponse
              [imageResponse]) as [_ H].
  apply (H [textBlock "First response"]).
  eexists. split; [reflexivity|]. split; reflexivity.
Defined.

Lemma unparseable_response_witness :
  Part000.transformMcpContentToParts Json.parse []
  = Returns [textPart (JStr "[Error: Could not parse tool response]")]
  /\ Part000.transformMcpContentToParts Json.parse
       [functionResponsePart "t" [("content", JStr "oops")]]
     = Returns [textPart (JStr "[Error: Could not parse tool response]")].
Proof. split; apply unparseable_response; reflexivity. Defined.

Lemma nullish_block_throws_witness :
  Part000.transformMcpContentToParts Json.parse
    [functionResponsePart "t" [("content", JArr [textBlock "a"; JNull])]]
  = Throws TypeError
  /\ Part000.getStringifiedResultForDisplay Json.stringify
       [functionResponsePart "t" [("content", JArr [textBlock "a"; JNull])]]
     = Throws TypeError.
Proof.
  apply (nullish_block_throws Json.parse Json.stringify _ JNull
           [textBlock "a"; JNull]).
  - eexists. split; [reflexivity|]. split; reflexivity.
  - right. left. reflexivity.
  - left. reflexivity.
Defined.

Lemma json_null_throws_witness :
  Part000.transformMcpContentToParts Json.parse
    [functionResponsePart "t" [("content", JArr [jsonNullBlock])]]
  = Throws TypeError.
Proof.
  apply (json_null_throws Json.parse _ jsonNullBlock (JStr "null")
           [jsonNullBlock]).
  - split; reflexivity.
  - reflexivity.
  - vm_compute. reflexivity.
  - eexists. split; [reflexivity|]. split; reflexivity.
  - left. reflexivity.
Defined.


Lemma unhandled_type_dropped_witness :
  Part000.transformBlock Json.parse (JStr "t") videoBlock = Returns JNull
  /\ kept JNull = []
  /\ Part000.displayBlock videoBlock
     = Returns (JStr "[Unknown content type: video]").
Proof.
  apply (unhandled_type_dropped Json.parse (JStr "t") videoBlock "video").
  - split; discriminate.
  - reflexivity.
  - discriminate.
  - simpl. intros [H|[H|[H|[H|[H|[]]]]]]; discriminate.
Defined.

Lemma Part000_text_only_witness :
  Part000.transformMcpContentToParts Json.parse [emptyContent] = Returns []
  /\ Part000.transformMcpContentToParts Json.parse [firstResponse]
     = Returns [textPart (JStr "First response")].
Proof.
  split.
  - apply (Part000_text_only Json.parse emptyContent []); [|constructor].
    eexists. split; [reflexivity|]. split; reflexivity.
  - apply (Part000_text_only Json.parse firstResponse
             [textBlock "First response"]).
    + eexists. split; [reflexivity|]. split; reflexivity.
    + repeat constructor.
Defined.


Lemma Part000_display_fallback_witness :
  Part000.getStringifiedResultForDisplay Json.stringify
    [JObj [("text", JStr "plain")]]
  = Returns ("```json" +:+ nl
             +:+ match Json.stringify (JArr [JObj [("text", JStr "plain")]]) with
                 | Some json => json
                 | None => "undefined"
                 end
             +:+ nl +:+ "```").
Proof. apply Part000_display_fallback. reflexivity. Defined.

(** ** The display functions inside execute *)

Section Summarizer.
Variable this : DiscoveredMCPTool.
Variable JSON_parse : string -> outcome JsVal.
Variable JSON_stringify : JsVal -> option string.








End Summarizer.


